(** * vehicle_info.py: the lookup pipeline of VEHICLEINFO

    A shallow embedding of [src/vehicle_info.py]: identifier validation,
    the provider call, response normalisation, the placeholder record,
    the presenter, the report writer and the top-level flow, followed by
    the properties the specification states about them.

    Python values are embedded as data ([pyval]); a [str] is the list of
    its Unicode code points; exceptions and console, network and file
    effects are explicit.  What belongs to the interpreter rather than to
    the program (Unicode case tables outside ASCII, the [repr] of floats
    and containers, JSON serialisation) is gathered in the class
    [PyRuntime] and every general theorem holds for every instance. *)

From Stdlib Require Import NArith ZArith List String Ascii Bool Lia SpecFloat.
From Stdlib Require Import DecimalString.
Import ListNotations.

Local Open Scope N_scope.
Local Open Scope list_scope.

(** ** Strings *)

(** A Python [str]: its code points, in order. *)
Definition ustring := list N.

(** Literals are written as in the source and read as UTF-8. *)
Fixpoint utf8_decode (pending : nat) (acc : N) (bs : list N) : ustring :=
  match bs with
  | [] => []
  | b :: rest =>
      match pending with
      | O =>
          if b <? 128 then b :: utf8_decode 0 0 rest
          else if b <? 224 then utf8_decode 1 (b - 192) rest
          else if b <? 240 then utf8_decode 2 (b - 224) rest
          else utf8_decode 3 (b - 240) rest
      | S O => (acc * 64 + (b - 128)) :: utf8_decode 0 0 rest
      | S p => utf8_decode p (acc * 64 + (b - 128)) rest
      end
  end.

Definition U (s : string) : ustring :=
  utf8_decode 0 0 (map N_of_ascii (list_ascii_of_string s)).

(** [a == b] on two [str]. *)
Fixpoint ueqb (a b : ustring) : bool :=
  match a, b with
  | [], [] => true
  | x :: a', y :: b' => (x =? y) && ueqb a' b'
  | _, _ => false
  end.

(** [sep.join(parts)] *)
Fixpoint join (sep : ustring) (parts : list ustring) : ustring :=
  match parts with
  | [] => []
  | [p] => p
  | p :: rest => p ++ sep ++ join sep rest
  end.

(** [c * n] for a one-character string [c]. *)
Definition times (c : N) (n : nat) : ustring := repeat c n.

(** ** Values *)

(** What [json.loads] can produce, which is also all the program builds:
    [None], booleans, integers, floats, strings, lists, and dictionaries
    with string keys.  A dictionary keeps its items in insertion order,
    one item per key. *)
#[warnings="-register-all"]
Inductive pyval : Type :=
| PNone
| PBool (b : bool)
| PInt (i : Z)
| PFloat (f : spec_float)
| PStr (s : ustring)
| PList (xs : list pyval)
| PDict (items : list (ustring * pyval)).

Definition pydict := list (ustring * pyval).

(** [v is None] *)
Definition is_none (v : pyval) : bool :=
  match v with PNone => true | _ => false end.

(** [v == s] for a string literal [s]: only a [str] equals a [str]. *)
Definition py_eq_str (v : pyval) (s : ustring) : bool :=
  match v with PStr t => ueqb t s | _ => false end.

(** [bool(v)], the test behind [if v:]. *)
Definition py_truthy (v : pyval) : bool :=
  match v with
  | PNone => false
  | PBool b => b
  | PInt i => negb (Z.eqb i 0)
  | PFloat f => match f with S754_zero _ => false | _ => true end
  | PStr s => match s with [] => false | _ => true end
  | PList xs => match xs with [] => false | _ => true end
  | PDict d => match d with [] => false | _ => true end
  end.

(** ** Exceptions *)

(** [SystemExit] is kept apart because [except Exception] does not catch
    it; every other exception is recorded by class name and [str(e)]. *)
Inductive exn : Type :=
| SystemExit (code : Z)
| Exception (cls : ustring) (msg : ustring).

Definition is_Exception (e : exn) : bool :=
  match e with SystemExit _ => false | Exception _ _ => true end.

(** [str(e)] *)
Definition str_exn (e : exn) : ustring :=
  match e with
  | SystemExit _ => []
  | Exception _ msg => msg
  end.

(** A computation that returns or raises. *)
Definition result (A : Type) : Type := (exn + A)%type.

Definition Ok {A} (a : A) : result A := inr a.
Definition Raise {A} (e : exn) : result A := inl e.

(** ** Dictionaries *)

Fixpoint dict_lookup (d : pydict) (k : ustring) : option pyval :=
  match d with
  | [] => None
  | (k', v) :: rest => if ueqb k' k then Some v else dict_lookup rest k
  end.

(** [k in d] *)
Definition dict_contains (d : pydict) (k : ustring) : bool :=
  match dict_lookup d k with Some _ => true | None => false end.

(** [d.get(k)] *)
Definition dict_get (d : pydict) (k : ustring) : pyval :=
  match dict_lookup d k with Some v => v | None => PNone end.

(** [d[k]] *)
Definition dict_getitem (d : pydict) (k : ustring) : result pyval :=
  match dict_lookup d k with
  | Some v => Ok v
  | None => Raise (Exception (U "KeyError") k)
  end.

(** ** Response parser *)

(** [extract_vehicle_data(api_response)]: the pair it returns. *)
Definition extract_vehicle_data (api_response : pyval) : result (pyval * pyval) :=
  match api_response with
  | PDict d =>
      if dict_contains d (U "error") then
        match dict_getitem d (U "error") with
        | inr e => Ok (PNone, e)
        | inl x => Raise x
        end
      else if py_eq_str (dict_get d (U "status")) (U "success")
              && dict_contains d (U "response") then
        match dict_getitem d (U "response") with
        | inr r => Ok (r, PNone)
        | inl x => Raise x
        end
      else if dict_contains d (U "license_plate")
              || dict_contains d (U "owner_name") then
        Ok (api_response, PNone)
      else Ok (PNone, PStr (U "Unknown response format"))
  | _ => Ok (PNone, PStr (U "Response is not a dictionary"))
  end.

(** ** Interpreter services *)

(** The parts of the Python runtime the program calls and this
    development does not define: they are consulted only where stated. *)
Class PyRuntime : Type := {
  (** [chr(c).upper()] for a code point [c >= 128] *)
  upper_ext : N -> ustring;
  (** [s.title()] for a string holding a code point [>= 128] *)
  title_ext : ustring -> ustring;
  (** [str(v)] for a float, a list or a dictionary *)
  repr_ext : pyval -> ustring;
  (** [json.dumps(v, indent=2)] *)
  json_dumps_indent : pyval -> ustring
}.

Definition is_ascii (c : N) : bool := c <? 128.
Definition is_AZ (c : N) : bool := (65 <=? c) && (c <=? 90).
Definition is_az (c : N) : bool := (97 <=? c) && (c <=? 122).
Definition is_09 (c : N) : bool := (48 <=? c) && (c <=? 57).

Section Builtins.
Context {rt : PyRuntime}.

(** [s.upper()]: the full upper-case mapping, code point by code point. *)
Definition upper_cp (c : N) : ustring :=
  if is_az c then [c - 32]
  else if is_ascii c then [c]
  else upper_ext c.

Definition py_upper (s : ustring) : ustring := flat_map upper_cp s.

(** [s.title()]: a letter that follows a cased character is lowered,
    any other letter is raised. *)
Fixpoint title_ascii (previous_is_cased : bool) (s : ustring) : ustring :=
  match s with
  | [] => []
  | c :: rest =>
      (if previous_is_cased
       then (if is_AZ c then c + 32 else c)
       else (if is_az c then c - 32 else c))
      :: title_ascii (is_AZ c || is_az c) rest
  end.

Definition py_title (s : ustring) : ustring :=
  if forallb is_ascii s then title_ascii false s else title_ext s.

(** [str(v)], which is what an f-string field without a format
    specification inserts. *)
Definition py_str (v : pyval) : ustring :=
  match v with
  | PNone => U "None"
  | PBool true => U "True"
  | PBool false => U "False"
  | PInt i => U (NilZero.string_of_int (Z.to_int i))
  | PStr s => s
  | _ => repr_ext v
  end.

End Builtins.

(** [s.replace(a, b)] for one-character [a] and [b]. *)
Definition py_replace (a b : N) (s : ustring) : ustring :=
  map (fun c => if c =? a then b else c) s.

(** The characters [str.strip()] removes: those with [isspace()]. *)
Definition is_space (c : N) : bool :=
  ((9 <=? c) && (c <=? 13)) || ((28 <=? c) && (c <=? 32))
  || (c =? 133) || (c =? 160) || (c =? 5760)
  || ((8192 <=? c) && (c <=? 8202))
  || (c =? 8232) || (c =? 8233) || (c =? 8239) || (c =? 8287)
  || (c =? 12288).

Fixpoint lstrip (s : ustring) : ustring :=
  match s with
  | c :: rest => if is_space c then lstrip rest else s
  | [] => []
  end.

Definition py_strip (s : ustring) : ustring := rev (lstrip (rev (lstrip s))).

(** [f"{s:<n}"]: left-aligned in a field of [n] characters. *)
Definition ljust (n : nat) (s : ustring) : ustring :=
  s ++ repeat 32 (n - List.length s)%nat.

(** ** Regular expressions *)

(** The pattern language the program needs: a sequence of bounded
    repetitions of character classes, matched from the start of the
    string ([re.match]) and closed by [$].  Matching is by backtracking:
    [rx_repeat] lists every suffix a repetition can leave, longest
    repetition first. *)
Record rx_item : Type := Rx { rx_class : N -> bool; rx_min : nat; rx_max : nat }.

Fixpoint rx_repeat (cls : N -> bool) (lo hi : nat) (s : ustring) : list ustring :=
  match hi with
  | O => match lo with O => [s] | S _ => [] end
  | S hi' =>
      (match s with
       | c :: rest => if cls c then rx_repeat cls (pred lo) hi' rest else []
       | [] => []
       end)
      ++ (match lo with O => [s] | S _ => [] end)
  end.

Fixpoint rx_seq (items : list rx_item) (s : ustring) : list ustring :=
  match items with
  | [] => [s]
  | it :: rest =>
      flat_map (rx_seq rest) (rx_repeat (rx_class it) (rx_min it) (rx_max it) s)
  end.

(** [$] without [re.MULTILINE]: the end of the string, or the position
    before a newline that ends the string. *)
Definition rx_dollar (s : ustring) : bool :=
  match s with
  | [] => true
  | [c] => c =? 10
  | _ => false
  end.

(** [re.match(items + "$", s) is not None] *)
Definition re_match (items : list rx_item) (s : ustring) : bool :=
  existsb rx_dollar (rx_seq items s).

(** ** Validation *)

(** [^[A-Z]{2}[0-9]{1,2}[A-Z]{1,2}[0-9]{4}$] *)
Definition pattern : list rx_item :=
  [Rx is_AZ 2 2; Rx is_09 1 2; Rx is_AZ 1 2; Rx is_09 4 4].

Definition validate_vehicle_number {rt : PyRuntime} (number : ustring) : bool :=
  re_match pattern (py_upper number).

(** ** Demo data *)

Definition demo_data {rt : PyRuntime} (vehicle_no : ustring) : pyval :=
  PDict
    [(U "license_plate", PStr (py_upper vehicle_no));
     (U "owner_name", PStr (U "DEMO OWNER"));
     (U "registration_date", PStr (U "01-01-2020"));
     (U "class", PStr (U "Motor Car"));
     (U "fuel_type", PStr (U "Petrol"));
     (U "engine_number", PStr (U "DEMO12345"));
     (U "chassis_number", PStr (U "DEMO67890"));
     (U "maker_model", PStr (U "Maruti Suzuki Swift"));
     (U "insurance_expiry", PStr (U "31-12-2024"));
     (U "fit_up_to", PStr (U "31-12-2025"));
     (U "rc_status", PStr (U "Active"));
     (U "_note", PStr (U "This is demo data – API not used."))].

(** ** Display *)

Definition field_labels : list (ustring * ustring) :=
  [
   (U "license_plate", U "Registration No");
   (U "owner_name", U "Owner Name");
   (U "father_name", U "Father's Name");
   (U "registration_date", U "Registration Date");
   (U "class", U "Vehicle Class");
   (U "fuel_type", U "Fuel Type");
   (U "engine_number", U "Engine No");
   (U "chassis_number", U "Chassis No");
   (U "brand_name", U "Make");
   (U "brand_model", U "Model");
   (U "maker_model", U "Model");
   (U "insurance_expiry", U "Insurance Upto");
   (U "insurance_company", U "Insurance Co");
   (U "insurance_policy", U "Policy No");
   (U "fit_up_to", U "Fitness Upto");
   (U "tax_upto", U "Tax Upto");
   (U "rc_status", U "RC Status");
   (U "color", U "Colour");
   (U "norms", U "Emission Norms");
   (U "seating_capacity", U "Seating");
   (U "cubic_capacity", U "Engine CC");
   (U "cylinders", U "Cylinders");
   (U "vehicle_age", U "Vehicle Age");
   (U "pucc_upto", U "PUCC Upto");
   (U "pucc_number", U "PUCC No");
   (U "noc_details", U "NOC Details");
   (U "present_address", U "Present Address");
   (U "permanent_address", U "Permanent Address");
   (U "financer", U "Financer");
   (U "is_financed", U "Financed");
   (U "owner_count", U "Owner Count");
   (U "blacklist_status", U "Blacklist Status");
   (U "national_permit_number", U "National Permit No");
   (U "national_permit_upto", U "National Permit Upto");
   (U "permit_number", U "Permit No");
   (U "permit_issue_date", U "Permit Issue Date");
   (U "permit_valid_upto", U "Permit Valid Upto");
   (U "permit_type", U "Permit Type");
   (U "sleeper_capacity", U "Sleeper Capacity");
   (U "standing_capacity", U "Standing Capacity");
   (U "gross_weight", U "Gross Weight");
   (U "unladen_weight", U "Unladen Weight");
   (U "wheelbase", U "Wheelbase");
   (U "body_type", U "Body Type");
   (U "note", U "Note");
   (U "_note", U "Note")
  ].

(** [field_labels.get(key, default)] *)
Fixpoint labels_get (table : list (ustring * ustring)) (key default : ustring)
  : ustring :=
  match table with
  | [] => default
  | (k, label) :: rest => if ueqb k key then label else labels_get rest key default
  end.

(** The keys the loop skips. *)
Definition skipped_keys : list ustring :=
  [U "id"; U "createdAt"; U "updatedAt"; U "vehicleId"; U "source"; U "latest_by"].

(** The values the loop skips: [None] and four strings. *)
Definition skipped_values : list pyval :=
  [PNone; PStr []; PStr (U "null"); PStr (U "NA"); PStr (U "Not Available")].

(** [key in keys] for a list of strings. *)
Definition str_in (key : ustring) (keys : list ustring) : bool :=
  existsb (ueqb key) keys.

(** [value in candidates] where every candidate is [None] or a string. *)
Definition py_in (value : pyval) (candidates : list pyval) : bool :=
  existsb (fun c => match c with
                    | PNone => is_none value
                    | PStr s => py_eq_str value s
                    | _ => false
                    end) candidates.

(** [type(v).__name__] *)
Definition type_name (v : pyval) : ustring :=
  match v with
  | PNone => U "NoneType"
  | PBool _ => U "bool"
  | PInt _ => U "int"
  | PFloat _ => U "float"
  | PStr _ => U "str"
  | PList _ => U "list"
  | PDict _ => U "dict"
  end.

(** [v.items()]: only a dictionary has the method. *)
Definition py_items (v : pyval) : result pydict :=
  match v with
  | PDict d => Ok d
  | _ => Raise (Exception (U "AttributeError")
                  (U "'" ++ type_name v ++ U "' object has no attribute 'items'"))
  end.

Section Display.
Context {rt : PyRuntime}.

(** The line of one field: [f"  {label:<25}: {value}"]. *)
Definition field_line (key : ustring) (value : pyval) : ustring :=
  let label := labels_get field_labels key (py_title (py_replace 95 32 key)) in
  U "  " ++ ljust 25 label ++ U ": " ++ py_str value.

(** The [for key, value in vehicle_data.items()] loop: the lines it
    appends, in order. *)
Fixpoint field_lines (items : pydict) : list ustring :=
  match items with
  | [] => []
  | (key, value) :: rest =>
      if str_in key skipped_keys then field_lines rest
      else if py_in value skipped_values then field_lines rest
      else field_line key value :: field_lines rest
  end.

(** The list [lines] when the function reaches its [return]. *)
Definition format_vehicle_lines (items : pydict) (source : ustring)
  : list ustring :=
  [times 9552 56;
   U "🔍 VEHICLE DETAILS [Source: " ++ source ++ U "]";
   times 9552 56]
  ++ field_lines items
  ++ [times 9552 56].

Definition format_vehicle_text (vehicle_data : pyval) (source : ustring)
  : result ustring :=
  match py_items vehicle_data with
  | inr items => Ok (join [10] (format_vehicle_lines items source))
  | inl e => Raise e
  end.

End Display.

(** ** Effects *)

(** What a run does to the outside, in order. *)
Inductive event : Type :=
| Print (text : ustring)
    (** [print(text)] *)
| Input (prompt : ustring)
    (** [input(prompt)] *)
| HttpsPost (host path : ustring) (payload : pyval) (headers : pydict)
    (** [conn.request("POST", path, json.dumps(payload), headers)] on a
        connection to [host] *)
| MakeDirs (path : ustring)
    (** [os.makedirs(path)] *)
| WriteFile (path content : ustring).
    (** [open(path, 'w', encoding='utf-8')] followed by [f.write(content)] *)

(** An effectful computation: the events it produced, and how it ended. *)
Definition Py (A : Type) : Type := (list event * result A)%type.

Definition ret {A} (a : A) : Py A := ([], Ok a).
Definition raise {A} (e : exn) : Py A := ([], Raise e).
Definition emit (ev : event) : Py unit := ([ev], Ok tt).
Definition lift {A} (r : result A) : Py A := ([], r).

Definition bind {A B} (m : Py A) (k : A -> Py B) : Py B :=
  match m with
  | (t, inl e) => (t, inl e)
  | (t, inr a) => let (t', r) := k a in (t ++ t', r)
  end.

(** [try: body except Exception as e: handler(e)] *)
Definition try_except {A} (body : Py A) (handler : exn -> Py A) : Py A :=
  match body with
  | (t, inl e) =>
      if is_Exception e then let (t', r) := handler e in (t ++ t', r)
      else (t, inl e)
  | done => done
  end.

Declare Scope py_scope.
Delimit Scope py_scope with py.
Notation "x <- m ;; k" := (bind m (fun x => k))
  (at level 61, m at next level, right associativity) : py_scope.
Notation "m ;; k" := (bind m (fun _ => k))
  (at level 61, right associativity) : py_scope.

Definition print (text : ustring) : Py unit := emit (Print text).

(** The status the process ends with: 0 when [main] returns, the
    argument of [sys.exit], 1 after an uncaught exception. *)
Definition exit_status {A} (r : result A) : Z :=
  match r with
  | inr _ => 0%Z
  | inl (SystemExit code) => code
  | inl (Exception _ _) => 1%Z
  end.

(** ** Display to console *)

Definition display_info {rt : PyRuntime} (vehicle_data : pyval)
  (source : ustring) : Py unit :=
  bind (lift (format_vehicle_text vehicle_data source))
       (fun text => print ([10] ++ text)).

(** ** The outside world *)

(** What the provider call meets. *)
Inductive http_body : Type :=
| Undecodable (msg : ustring)
    (** [data.decode("utf-8")] raises, with this [str(e)] *)
| Text (text : ustring) (parsed : ustring + pyval).
    (** the decoded text, and what [json.loads] makes of it: the message
        of its exception, or the value *)

Inductive http_outcome : Type :=
| Failed (msg : ustring)
    (** connecting, sending or reading raises, with this [str(e)] *)
| Replied (status : Z) (body : http_body).

(** Everything a run reads from its environment. *)
Record world : Type := {
  (** [os.environ.get("RAPIDAPI_KEY")] once [load_env()] has run *)
  rapidapi_key : option ustring;
  (** [sys.argv[1:]] *)
  argv : list ustring;
  (** the line [input()] reads; [None] at end of input *)
  stdin_line : option ustring;
  (** the provider, by request payload *)
  provider : pyval -> http_outcome;
  (** [os.path.exists(REPORTS_DIR)] *)
  reports_dir_exists : bool;
  (** [os.makedirs]: the message of the [OSError] it raises, if any *)
  makedirs_error : ustring -> option ustring;
  (** opening and writing a file: the message of the [OSError], if any *)
  write_error : ustring -> ustring -> option ustring;
  (** [datetime.now().strftime('%Y-%m-%d %H:%M:%S')] in [main] *)
  now_header : ustring;
  (** [datetime.now().strftime("%Y%m%d_%H%M%S")] in [save_to_file] *)
  now_stamp : ustring
}.

(** ** Configuration *)

Definition RAPIDAPI_HOST : ustring := U "vehicle-rc-information-v2.p.rapidapi.com".
Definition API_ENDPOINT : ustring := U "/".
Definition REPORTS_DIR : ustring := U "reports".

Definition ESC : ustring := [27].

Definition opt_str (o : option ustring) : pyval :=
  match o with Some s => PStr s | None => PNone end.

(** [os.path.join(a, b)] on a POSIX system. *)
Definition os_path_join (a b : ustring) : ustring :=
  match b with
  | 47 :: _ => b
  | _ =>
      match rev a with
      | [] => b
      | 47 :: _ => a ++ b
      | _ => a ++ U "/" ++ b
      end
  end.

Section Program.
Context {rt : PyRuntime}.
Variable w : world.

Local Open Scope py_scope.

(** ** Banner *)

Definition show_banner : Py unit :=
  print (ESC ++ U "[1;36m") ;;
  print (U "╔══════════════════════════════════════════╗") ;;
  print (U "║         VEHICLEINFO - RTO LOOKUP        ║") ;;
  print (U "║          Tool by: MAHI-CYBERAWARE       ║") ;;
  print (U "╚══════════════════════════════════════════╝") ;;
  print (ESC ++ U "[0m").

(** ** API call *)

Definition fetch_from_api (vehicle_no : ustring) : Py pyval :=
  try_except
    (let payload := PDict [(U "vehicle_number", PStr vehicle_no)] in
     let headers :=
       [(U "x-rapidapi-key", opt_str (rapidapi_key w));
        (U "x-rapidapi-host", PStr RAPIDAPI_HOST);
        (U "Content-Type", PStr (U "application/json"))] in
     emit (HttpsPost RAPIDAPI_HOST API_ENDPOINT payload headers) ;;
     match provider w payload with
     | Failed msg => raise (Exception (U "OSError") msg)
     | Replied status data =>
         if Z.eqb status 200 then
           match data with
           | Undecodable msg => raise (Exception (U "UnicodeDecodeError") msg)
           | Text _ (inl msg) => raise (Exception (U "JSONDecodeError") msg)
           | Text _ (inr v) => ret v
           end
         else
           match data with
           | Undecodable msg => raise (Exception (U "UnicodeDecodeError") msg)
           | Text text _ =>
               ret (PDict [(U "error", PStr (U "HTTP " ++ py_str (PInt status)));
                           (U "details", PStr text)])
           end
     end)
    (fun e => ret (PDict [(U "error", PStr (str_exn e))])).

(** ** Save to file *)

Definition save_to_file (vehicle_no content : ustring) : Py unit :=
  (if negb (reports_dir_exists w) then
     emit (MakeDirs REPORTS_DIR) ;;
     match makedirs_error w REPORTS_DIR with
     | Some msg => raise (Exception (U "OSError") msg)
     | None => ret tt
     end ;;
     print (U "📁 Created directory: " ++ REPORTS_DIR ++ U "/")
   else ret tt) ;;
  let timestamp := now_stamp w in
  let filename := U "vehicle_" ++ vehicle_no ++ U "_" ++ timestamp ++ U ".txt" in
  let filepath := os_path_join REPORTS_DIR filename in
  try_except
    (emit (WriteFile filepath content) ;;
     match write_error w filepath content with
     | Some msg => raise (Exception (U "OSError") msg)
     | None => ret tt
     end ;;
     print (U "💾 Output saved to: " ++ filepath))
    (fun e => print (U "❌ Failed to save file: " ++ str_exn e)).

(** ** Main *)

Definition is_save_flag (arg : ustring) : bool :=
  ueqb arg (U "-s") || ueqb arg (U "--save").

(** [input(prompt)] *)
Definition input (prompt : ustring) : Py ustring :=
  emit (Input prompt) ;;
  match stdin_line w with
  | Some line => ret line
  | None => raise (Exception (U "EOFError") (U "EOF when reading a line"))
  end.

Definition main : Py unit :=
  show_banner ;;
  (if negb (py_truthy (opt_str (rapidapi_key w))) then
     print (ESC ++ U "[1;31m❌ ERROR: RAPIDAPI_KEY not found in .env file." ++ ESC ++ U "[0m") ;;
     print (U "Please create a .env file with your key (see .env.example).") ;;
     raise (SystemExit 1)
   else ret tt) ;;
  let args := argv w in
  let save_output := str_in (U "-s") args || str_in (U "--save") args in
  let args :=
    if save_output then filter (fun arg => negb (is_save_flag arg)) args
    else args in
  vehicle_no <-
    match args with
    | arg :: _ => ret (py_strip arg)
    | [] =>
        line <- input (U "Enter vehicle number (e.g., PB65AM0008): ") ;;
        ret (py_strip line)
    end ;;
  (if negb (validate_vehicle_number vehicle_no) then
     print (ESC ++ U "[1;31m❌ Invalid format. Use e.g., MH02FB2727" ++ ESC ++ U "[0m") ;;
     raise (SystemExit 1)
   else ret tt) ;;
  print ([10] ++ U "🔎 Fetching details for " ++ ESC ++ U "[1;33m"
         ++ py_upper vehicle_no ++ ESC ++ U "[0m...") ;;
  print (U "🌐 Using live API...") ;;
  api_response <- fetch_from_api vehicle_no ;;
  parsed <- lift (extract_vehicle_data api_response) ;;
  let (vehicle_data, error) := (parsed : pyval * pyval) in
  shown <-
    (if py_truthy vehicle_data then
       output_text <- lift (format_vehicle_text vehicle_data (U "Live API")) ;;
       print ([10] ++ output_text) ;;
       ret (output_text, U "Live API")
     else
       print (ESC ++ U "[1;33m⚠️  API issue: " ++ py_str error ++ ESC ++ U "[0m") ;;
       (if py_eq_str error (U "Unknown response format") then
          print ([10] ++ U "📦 Raw response received:") ;;
          print (json_dumps_indent api_response)
        else ret tt) ;;
       print ([10] ++ U "🔄 Falling back to demo data...") ;;
       let vehicle_data := demo_data vehicle_no in
       output_text <- lift (format_vehicle_text vehicle_data (U "Demo")) ;;
       print ([10] ++ output_text) ;;
       ret (output_text, U "Demo")) ;;
  let (output_text, source_type) := (shown : ustring * ustring) in
  if save_output then
    let full_output :=
      U "VEHICLEINFO Report" ++ [10] ++ U "Generated: " ++ now_header w ++ [10]
      ++ U "Vehicle: " ++ py_upper vehicle_no ++ [10]
      ++ U "Source: " ++ source_type ++ [10; 10] ++ output_text in
    save_to_file vehicle_no full_output
  else ret tt.

End Program.

(** ** Concrete runs *)

(** [needle in hay] on two [str]. *)
Fixpoint starts_with (prefix s : ustring) : bool :=
  match prefix, s with
  | [], _ => true
  | p :: prefix', c :: s' => (p =? c) && starts_with prefix' s'
  | _ :: _, [] => false
  end.

Fixpoint contains (needle hay : ustring) : bool :=
  starts_with needle hay
  || match hay with
     | [] => false
     | _ :: hay' => contains needle hay'
     end.

(** A runtime to run the program on concrete inputs.  Its [upper_ext]
    lists the code points beyond ASCII whose upper-case form consists of
    ASCII letters (U+00DF, U+0131, U+017F, U+FB00 to U+FB06) and leaves
    the others unchanged.  The runs below use ASCII keys and string
    values, on which the three other services are not consulted. *)
Definition upper_to_ascii : list (N * ustring) :=
  [(223, U "SS"); (305, U "I"); (383, U "S"); (64256, U "FF");
   (64257, U "FI"); (64258, U "FL"); (64259, U "FFI"); (64260, U "FFL");
   (64261, U "ST"); (64262, U "ST")].

Fixpoint upper_lookup (table : list (N * ustring)) (c : N) : ustring :=
  match table with
  | [] => [c]
  | (c', up) :: rest => if c' =? c then up else upper_lookup rest c
  end.

Definition runtime_excerpt : PyRuntime :=
  {| upper_ext := upper_lookup upper_to_ascii;
     title_ext := fun s => s;
     repr_ext := fun _ => [];
     json_dumps_indent := fun _ => [] |}.

(** A response that carries an [error] key next to a complete success
    envelope. *)
Definition error_inside_envelope : pydict :=
  [(U "status", PStr (U "success"));
   (U "response", PDict [(U "owner_name", PStr (U "A"))]);
   (U "error", PStr (U "quota exceeded"))].

(** The success envelope of scenario A. *)
Definition success_envelope : pydict :=
  [(U "status", PStr (U "success"));
   (U "response", PDict [(U "owner_name", PStr (U "JOHN DOE"));
                         (U "license_plate", PStr (U "PB65AM0008"))])].

(** A world with a credential, an existing report directory and no
    failing write, for the given arguments and provider behaviour. *)
Definition sample_world (args : list ustring) (reply : http_outcome) : world :=
  {| rapidapi_key := Some (U "0123456789abcdef");
     argv := args;
     stdin_line := None;
     provider := fun _ => reply;
     reports_dir_exists := true;
     makedirs_error := fun _ => None;
     write_error := fun _ _ => None;
     now_header := U "2026-01-01 12:00:00";
     now_stamp := U "20260101_120000" |}.

(** JSON text, written with ['] where the text has a double quote. *)
Definition json_text (s : string) : ustring := py_replace 39 34 (U s).

(** Scenario A: the identifier [pb65am0008] and a success envelope
    around a record of two fields. *)
Definition scenario_A_reply : http_outcome :=
  Replied 200
    (Text (json_text "{'status':'success','response':{'owner_name':'JOHN DOE','license_plate':'PB65AM0008'}}")
          (inr (PDict success_envelope))).

Definition scenario_A : world := sample_world [U "pb65am0008"] scenario_A_reply.

(** The line the specification quotes for scenario A: the label,
    fourteen spaces, the colon and the value. *)
Definition quoted_owner_line : ustring := U "Owner Name              : JOHN DOE".

(** A success envelope around an empty record. *)
Definition empty_record_envelope : pyval :=
  PDict [(U "status", PStr (U "success")); (U "response", PDict [])].

Definition empty_record_world : world :=
  sample_world [U "PB65AM0008"]
    (Replied 200 (Text (json_text "{'status': 'success', 'response': {}}")
                       (inr empty_record_envelope))).

(** A success envelope around a message instead of a record. *)
Definition message_envelope : pyval :=
  PDict [(U "status", PStr (U "success"));
         (U "response", PStr (U "No record found"))].

Definition message_world : world :=
  sample_world [U "PB65AM0008"]
    (Replied 200
       (Text (json_text "{'status': 'success', 'response': 'No record found'}")
             (inr message_envelope))).

(** A lower-case identifier, with the report saved. *)
Definition lower_case_save_world : world :=
  sample_world [U "pb65am0008"; U "--save"] scenario_A_reply.

(** A working directory in which [reports] is missing and cannot be
    created. *)
Definition read_only_world : world :=
  {| rapidapi_key := Some (U "0123456789abcdef");
     argv := [U "PB65AM0008"; U "--save"];
     stdin_line := None;
     provider := fun _ => scenario_A_reply;
     reports_dir_exists := false;
     makedirs_error :=
       fun _ => Some (U "[Errno 13] Permission denied: 'reports'");
     write_error := fun _ _ => None;
     now_header := U "2026-01-01 12:00:00";
     now_stamp := U "20260101_120000" |}.

(** A report directory that has to be created, on a full disk. *)
Definition disk_full_world : world :=
  {| rapidapi_key := Some (U "0123456789abcdef");
     argv := [U "PB65AM0008"; U "--save"];
     stdin_line := None;
     provider := fun _ => scenario_A_reply;
     reports_dir_exists := false;
     makedirs_error := fun _ => None;
     write_error := fun _ _ => Some (U "[Errno 28] No space left on device");
     now_header := U "2026-01-01 12:00:00";
     now_stamp := U "20260101_120000" |}.

(** The headers [fetch_from_api] sends. *)
Definition request_headers (w : world) : pydict :=
  [(U "x-rapidapi-key", opt_str (rapidapi_key w));
   (U "x-rapidapi-host", PStr RAPIDAPI_HOST);
   (U "Content-Type", PStr (U "application/json"))].

(** The identifier [main] works on: the first argument that is not a
    save flag, else the line read from the console, stripped. *)
Definition identifier (w : world) : option ustring :=
  match filter (fun arg => negb (is_save_flag arg)) (argv w) with
  | arg :: _ => Some (py_strip arg)
  | [] =>
      match stdin_line w with
      | Some line => Some (py_strip line)
      | None => None
      end
  end.

(** [any(isinstance(ev, HttpsPost) for ev in trace)] *)
Definition is_network_call (ev : event) : bool :=
  match ev with HttpsPost _ _ _ _ => true | _ => false end.

(** ** Environment file *)

(** [os.environ]: the latest binding of a name comes first. *)
Definition environ := list (ustring * ustring).

(** [os.environ.get(name)] *)
Fixpoint environ_get (env : environ) (name : ustring) : option ustring :=
  match env with
  | [] => None
  | (n, v) :: rest => if ueqb n name then Some v else environ_get rest name
  end.

(** [os.environ[name] = value], as CPython on Linux does it: a null
    character in either string and an empty name are refused (a name
    cannot contain [=] here, since it is cut at the first one). *)
Definition environ_set (env : environ) (name value : ustring) : result environ :=
  if existsb (N.eqb 0) name || existsb (N.eqb 0) value then
    Raise (Exception (U "ValueError") (U "embedded null byte"))
  else
    match name with
    | [] => Raise (Exception (U "OSError") (U "[Errno 22] Invalid argument"))
    | _ => Ok ((name, value) :: env)
    end.

(** [s.split(sep, 1)] for a one-character [sep]: the two parts around
    the first [sep], or nothing when [s] has none (the list then has
    one element). *)
Fixpoint split_once (sep : N) (s : ustring) : option (ustring * ustring) :=
  match s with
  | [] => None
  | c :: rest =>
      if c =? sep then Some ([], rest)
      else match split_once sep rest with
           | Some (before, after) => Some (c :: before, after)
           | None => None
           end
  end.

(** [s.strip(chars)] *)
Fixpoint lstrip_chars (chars : ustring) (s : ustring) : ustring :=
  match s with
  | c :: rest => if existsb (N.eqb c) chars then lstrip_chars chars rest else s
  | [] => []
  end.

Definition strip_chars (chars : ustring) (s : ustring) : ustring :=
  rev (lstrip_chars chars (rev (lstrip_chars chars s))).

(** The characters the loader strips from a value: the single and the
    double quote. *)
Definition quotes : ustring := [39; 34].

(** The file [.env] as [load_env] meets it. *)
Inductive env_file : Type :=
| NoFile
    (** [os.path.exists('.env')] is false *)
| Unreadable (msg : ustring)
    (** opening or decoding the file raises, with this [str(e)] *)
| Lines (lines : list ustring).
    (** the lines the file iterator yields *)

(** The body of [for line in f]. *)
Fixpoint load_env_lines (lines : list ustring) (env : environ) : result environ :=
  match lines with
  | [] => Ok env
  | raw :: rest =>
      let line := py_strip raw in
      if py_truthy (PStr line) && negb (starts_with (U "#") line) then
        match split_once 61 line with
        | None =>
            Raise (Exception (U "ValueError")
                     (U "not enough values to unpack (expected 2, got 1)"))
        | Some (key, value) =>
            match environ_set env (py_strip key)
                    (strip_chars quotes (py_strip value)) with
            | inr env' => load_env_lines rest env'
            | inl e => Raise e
            end
        end
      else load_env_lines rest env
  end.

Definition load_env (file : env_file) (env : environ) : result environ :=
  match file with
  | NoFile => Ok env
  | Unreadable msg => Raise (Exception (U "OSError") msg)
  | Lines lines => load_env_lines lines env
  end.

(** The two module-level statements [load_env()] and
    [RAPIDAPI_KEY = os.environ.get("RAPIDAPI_KEY")]. *)
Definition load_RAPIDAPI_KEY (file : env_file) (env : environ)
  : result (option ustring) :=
  match load_env file env with
  | inr env' => Ok (environ_get env' (U "RAPIDAPI_KEY"))
  | inl e => Raise e
  end.

(** ** Worlds and traces *)

(** The same world with other arguments. *)
Definition set_argv (w : world) (args : list ustring) : world :=
  {| rapidapi_key := rapidapi_key w;
     argv := args;
     stdin_line := stdin_line w;
     provider := provider w;
     reports_dir_exists := reports_dir_exists w;
     makedirs_error := makedirs_error w;
     write_error := write_error w;
     now_header := now_header w;
     now_stamp := now_stamp w |}.

(** Console events: what is printed and what is asked. *)
Definition is_console (ev : event) : bool :=
  match ev with Print _ | Input _ => true | _ => false end.

(** The dictionary [fetch_from_api] returns for an exception. *)
Definition error_descriptor (msg : ustring) : pyval :=
  PDict [(U "error", PStr msg)].

(** ** Reading of the pattern *)

(** What a pattern says: the string splits into one block per item, of
    the item's class and of a length within its bounds, followed by
    [r]. *)
Fixpoint rx_splits (items : list rx_item) (s r : ustring) : Prop :=
  match items with
  | [] => s = r
  | it :: rest =>
      exists block tail,
        s = block ++ tail
        /\ forallb (rx_class it) block = true
        /\ (rx_min it <= List.length block <= rx_max it)%nat
        /\ rx_splits rest tail r
  end.

(** The plate shape in the specification's words: two letters, one or
    two digits, one or two letters, four digits, letters in either
    case. *)
Definition is_letter (c : N) : bool := is_AZ c || is_az c.

Definition plate (s : ustring) : Prop :=
  exists l1 d1 l2 d2,
    s = l1 ++ d1 ++ l2 ++ d2
    /\ forallb is_letter l1 = true /\ List.length l1 = 2%nat
    /\ forallb is_09 d1 = true /\ (1 <= List.length d1 <= 2)%nat
    /\ forallb is_letter l2 = true /\ (1 <= List.length l2 <= 2)%nat
    /\ forallb is_09 d2 = true /\ List.length d2 = 4%nat.

(** [upper()] on one ASCII character. *)
Definition up (c : N) : N := if is_az c then c - 32 else c.

(** * Properties *)

(** ** Strings and dictionaries *)

Lemma ueqb_eq (a b : ustring) : ueqb a b = true <-> a = b.
Proof.
  revert b; induction a as [|x a IH]; intros [|y b]; simpl; split;
    try congruence; try reflexivity.
  - intros H. apply andb_true_iff in H as [Hx Hab].
    apply N.eqb_eq in Hx. apply IH in Hab. congruence.
  - intros H. injection H as -> ->. apply andb_true_iff; split.
    + apply N.eqb_refl.
    + now apply IH.
Qed.

Lemma ueqb_refl (a : ustring) : ueqb a a = true.
Proof. now apply ueqb_eq. Qed.

Lemma ueqb_neq (a b : ustring) : ueqb a b = false <-> a <> b.
Proof.
  split.
  - intros H E. apply ueqb_eq in E. congruence.
  - intros H. destruct (ueqb a b) eqn:E; [|reflexivity].
    apply ueqb_eq in E. contradiction.
Qed.

Lemma py_eq_str_true (v : pyval) (s : ustring) :
  py_eq_str v s = true <-> v = PStr s.
Proof.
  destruct v; simpl; split; try congruence.
  - intros H. apply ueqb_eq in H. congruence.
  - intros H. injection H as ->. apply ueqb_refl.
Qed.

Lemma dict_contains_getitem (d : pydict) (k : ustring) :
  dict_contains d k = true <-> exists v, dict_getitem d k = Ok v.
Proof.
  unfold dict_contains, dict_getitem.
  destruct (dict_lookup d k) as [v|]; split; try congruence.
  - intros _. now exists v.
  - intros [v H]. discriminate H.
Qed.

(** ** Response parser *)

(** The parser never raises: each subscript sits under a membership test
    of the same key. *)
Lemma extract_vehicle_data_returns (raw : pyval) :
  exists record reason, extract_vehicle_data raw = Ok (record, reason).
Proof.
  destruct raw; try (now eexists; eexists).
  unfold extract_vehicle_data, dict_contains, dict_getitem.
  destruct (dict_lookup items (U "error")); [now eexists; eexists|].
  destruct (py_eq_str (dict_get items (U "status")) (U "success")); simpl.
  - destruct (dict_lookup items (U "response")); [now eexists; eexists|].
    destruct (_ || _); now eexists; eexists.
  - destruct (_ || _); now eexists; eexists.
Qed.

(** C1, as the specification states it, fails: a response whose [error]
    field is JSON [null] is normalised to a null record together with a
    null failure reason. *)
Lemma extract_vehicle_data_both_null :
  extract_vehicle_data (PDict [(U "error", PNone)]) = Ok (PNone, PNone).
Proof. reflexivity. Qed.

(** C1 (amended).  For every raw provider response,
    [extract_vehicle_data] returns a pair of which at least one component
    is null, so the record and the reason are never both present; exactly
    one is non-null unless the value the parser hands on is itself null,
    that is, unless the response is a dictionary whose [error] value is
    null, or a dictionary without [error] whose [status] is "success" and
    whose [response] value is null: then both are null. *)
Theorem extract_vehicle_data_at_most_one (raw : pyval) :
  exists record reason,
    extract_vehicle_data raw = Ok (record, reason)
    /\ (record = PNone \/ reason = PNone)
    /\ ((record = PNone /\ reason = PNone) <->
        exists d, raw = PDict d
          /\ (dict_lookup d (U "error") = Some PNone
              \/ (dict_lookup d (U "error") = None
                  /\ dict_get d (U "status") = PStr (U "success")
                  /\ dict_lookup d (U "response") = Some PNone))).
Proof.
  destruct raw as [| b | i | f | s | xs | d];
    try (exists PNone; eexists; split; [reflexivity|]; split; [now left|];
         split; [intros [_ H]; discriminate H
                |intros [d [H _]]; discriminate H]).
  unfold extract_vehicle_data, dict_contains, dict_getitem.
  destruct (dict_lookup d (U "error")) as [e|] eqn:Eerr.
  { exists PNone, e. split; [reflexivity|]. split; [now left|]. split.
    - intros [_ ->]. exists d. split; [reflexivity|]. now left.
    - intros [d' [Hd [H | [H _]]]]; injection Hd as <-.
      + split; congruence.
      + congruence. }
  destruct (py_eq_str (dict_get d (U "status")) (U "success")) eqn:Est; simpl.
  - apply py_eq_str_true in Est.
    destruct (dict_lookup d (U "response")) as [r|] eqn:Eresp.
    + exists r, PNone. split; [reflexivity|]. split; [now right|]. split.
      * intros [-> _]. exists d. split; [reflexivity|]. right. now repeat split.
      * intros [d' [Hd [H | [_ [_ H]]]]]; injection Hd as <-.
        -- congruence.
        -- split; congruence.
    + destruct (_ || _).
      * exists (PDict d), PNone. split; [reflexivity|]. split; [now right|].
        split.
        -- intros [H _]. discriminate H.
        -- intros [d' [Hd [H | [_ [_ H]]]]]; injection Hd as <-; congruence.
      * eexists PNone, _. split; [reflexivity|]. split; [now left|]. split.
        -- intros [_ H]. discriminate H.
        -- intros [d' [Hd [H | [_ [_ H]]]]]; injection Hd as <-; congruence.
  - assert (Hst : dict_get d (U "status") <> PStr (U "success")).
    { intros H. apply py_eq_str_true in H. congruence. }
    destruct (_ || _).
    + exists (PDict d), PNone. split; [reflexivity|]. split; [now right|].
      split.
      * intros [H _]. discriminate H.
      * intros [d' [Hd [H | [_ [H _]]]]]; injection Hd as <-; congruence.
    + eexists PNone, _. split; [reflexivity|]. split; [now left|]. split.
      * intros [_ H]. discriminate H.
      * intros [d' [Hd [H | [_ [H _]]]]]; injection Hd as <-; congruence.
Qed.

(** C3.  A dictionary response that contains an [error] key is
    normalised to a failure whose reason is the value of that key,
    whatever else the dictionary holds: the success envelope, the flat
    record and the "Unknown response format" branches are not reached. *)
Theorem extract_vehicle_data_error_key (d : pydict) :
  dict_contains d (U "error") = true ->
  exists e,
    dict_getitem d (U "error") = Ok e
    /\ extract_vehicle_data (PDict d) = Ok (PNone, e).
Proof.
  intros H. unfold extract_vehicle_data. rewrite H.
  apply dict_contains_getitem in H as [e He].
  exists e. now rewrite He.
Qed.

Lemma extract_vehicle_data_error_key_witness :
  dict_contains error_inside_envelope (U "error") = true
  /\ exists e,
       dict_getitem error_inside_envelope (U "error") = Ok e
       /\ extract_vehicle_data (PDict error_inside_envelope) = Ok (PNone, e).
Proof.
  split; [reflexivity|].
  apply (extract_vehicle_data_error_key error_inside_envelope). reflexivity.
Defined.

(** C4.  A dictionary response without an [error] key, whose [status]
    equals "success" and which contains a [response] field, is
    normalised to a success: the record is the [response] value itself
    and the failure reason is null. *)
Theorem extract_vehicle_data_success_envelope (d : pydict) :
  dict_contains d (U "error") = false ->
  py_eq_str (dict_get d (U "status")) (U "success") = true ->
  dict_contains d (U "response") = true ->
  exists r,
    dict_getitem d (U "response") = Ok r
    /\ extract_vehicle_data (PDict d) = Ok (r, PNone).
Proof.
  intros Herr Hst Hresp. unfold extract_vehicle_data.
  rewrite Herr, Hst, Hresp. simpl.
  apply dict_contains_getitem in Hresp as [r Hr].
  exists r. now rewrite Hr.
Qed.

Lemma extract_vehicle_data_success_envelope_witness :
  dict_contains success_envelope (U "error") = false
  /\ py_eq_str (dict_get success_envelope (U "status")) (U "success") = true
  /\ dict_contains success_envelope (U "response") = true
  /\ exists r,
       dict_getitem success_envelope (U "response") = Ok r
       /\ extract_vehicle_data (PDict success_envelope) = Ok (r, PNone).
Proof.
  repeat (split; [reflexivity|]).
  apply (extract_vehicle_data_success_envelope success_envelope); reflexivity.
Defined.

(** ** Display *)

Lemma str_in_In (key : ustring) (keys : list ustring) :
  str_in key keys = true <-> In key keys.
Proof.
  unfold str_in. rewrite existsb_exists. split.
  - intros [k [Hk E]]. apply ueqb_eq in E. now subst.
  - intros H. exists key. split; [assumption | apply ueqb_refl].
Qed.

Lemma py_in_skipped_values (value : pyval) :
  py_in value skipped_values = true <-> In value skipped_values.
Proof.
  unfold py_in. rewrite existsb_exists. split.
  - intros [c [Hc E]].
    repeat (destruct Hc as [<- | Hc]; [| ]); try contradiction;
      try (apply py_eq_str_true in E; subst; simpl; tauto).
    destruct value; try discriminate E. now left.
  - intros H. exists value. split; [assumption|].
    repeat (destruct H as [<- | H]; [simpl; try apply ueqb_refl; reflexivity|]).
    contradiction.
Qed.

Section DisplayFacts.
Context {rt : PyRuntime}.

Lemma field_lines_app (items1 items2 : pydict) :
  field_lines (items1 ++ items2) = field_lines items1 ++ field_lines items2.
Proof.
  induction items1 as [|[key value] rest IH]; [reflexivity|].
  cbn [app field_lines].
  destruct (str_in key skipped_keys); [assumption|].
  destruct (py_in value skipped_values); [assumption|].
  cbn [app]. now rewrite IH.
Qed.

(** A skipped item appends nothing. *)
Lemma field_lines_skip (key : ustring) (value : pyval) (rest : pydict) :
  In key skipped_keys \/ In value skipped_values ->
  field_lines ((key, value) :: rest) = field_lines rest.
Proof.
  intros H. cbn [field_lines].
  destruct (str_in key skipped_keys) eqn:Ek; [reflexivity|].
  destruct (py_in value skipped_values) eqn:Ev; [reflexivity|].
  destruct H as [H | H].
  - apply str_in_In in H. congruence.
  - apply py_in_skipped_values in H. congruence.
Qed.

(** The loop appends one line per item that is not skipped, and nothing
    else. *)
Lemma field_lines_filter (items : pydict) :
  field_lines items
  = map (fun kv => field_line (fst kv) (snd kv))
      (filter (fun kv => negb (str_in (fst kv) skipped_keys)
                         && negb (py_in (snd kv) skipped_values)) items).
Proof.
  induction items as [|[key value] rest IH]; [reflexivity|].
  cbn [field_lines filter fst snd].
  destruct (str_in key skipped_keys); cbn [negb andb]; [assumption|].
  destruct (py_in value skipped_values); cbn [negb andb map fst snd];
    [assumption|].
  now rewrite IH.
Qed.

(** A record all of whose fields are skipped is presented as the four
    decoration lines alone. *)
Lemma format_vehicle_lines_all_skipped (items : pydict) (source : ustring) :
  (forall key value, In (key, value) items ->
     In key skipped_keys \/ In value skipped_values) ->
  format_vehicle_lines items source = format_vehicle_lines [] source.
Proof.
  intros H. unfold format_vehicle_lines. f_equal. f_equal.
  induction items as [|[key value] rest IH]; [reflexivity|].
  rewrite field_lines_skip.
  - apply IH. intros k v Hin. apply H. now right.
  - apply H. now left.
Qed.

End DisplayFacts.

(** C5.  For every record and provenance label, a field whose key is one
    of the bookkeeping keys ([id], [createdAt], [updatedAt], [vehicleId],
    [source], [latest_by]) or whose value is [None], the empty string, "null", "NA" or
    "Not Available" contributes no line to the report: wherever the field
    stands in the record, the lines and the text of the report are those
    of the record without it. *)
Theorem format_vehicle_text_skips
  {rt : PyRuntime} (before after : pydict) (key : ustring) (value : pyval)
  (source : ustring) :
  In key [U "id"; U "createdAt"; U "updatedAt"; U "vehicleId"; U "source";
          U "latest_by"]
  \/ In value [PNone; PStr []; PStr (U "null"); PStr (U "NA");
               PStr (U "Not Available")] ->
  format_vehicle_lines (before ++ (key, value) :: after) source
  = format_vehicle_lines (before ++ after) source
  /\ format_vehicle_text (PDict (before ++ (key, value) :: after)) source
     = format_vehicle_text (PDict (before ++ after)) source.
Proof.
  intros H.
  assert (E : format_vehicle_lines (before ++ (key, value) :: after) source
              = format_vehicle_lines (before ++ after) source).
  { unfold format_vehicle_lines.
    rewrite !field_lines_app, field_lines_skip; [reflexivity | exact H]. }
  split; [exact E|].
  unfold format_vehicle_text, py_items, Ok. cbv beta iota. now rewrite E.
Qed.

Lemma format_vehicle_text_skips_witness :
  (In (U "id") [U "id"; U "createdAt"; U "updatedAt"; U "vehicleId";
                U "source"; U "latest_by"]
   \/ In (PInt 42) [PNone; PStr []; PStr (U "null"); PStr (U "NA");
                    PStr (U "Not Available")])
  /\ format_vehicle_lines (rt := runtime_excerpt)
       ([(U "owner_name", PStr (U "JOHN DOE"))]
        ++ (U "id", PInt 42) :: [(U "color", PStr (U "Red"))]) (U "Live API")
     = format_vehicle_lines (rt := runtime_excerpt)
         ([(U "owner_name", PStr (U "JOHN DOE"))]
          ++ [(U "color", PStr (U "Red"))]) (U "Live API")
  /\ format_vehicle_text (rt := runtime_excerpt)
       (PDict ([(U "owner_name", PStr (U "JOHN DOE"))]
               ++ (U "id", PInt 42) :: [(U "color", PStr (U "Red"))]))
       (U "Live API")
     = format_vehicle_text (rt := runtime_excerpt)
         (PDict ([(U "owner_name", PStr (U "JOHN DOE"))]
                 ++ [(U "color", PStr (U "Red"))])) (U "Live API").
Proof.
  split; [left; left; reflexivity|].
  apply (format_vehicle_text_skips (rt := runtime_excerpt)
           [(U "owner_name", PStr (U "JOHN DOE"))]
           [(U "color", PStr (U "Red"))] (U "id") (PInt 42) (U "Live API")).
  left. left. reflexivity.
Defined.

(** ** Validation *)

(** *** The matcher against its reading *)

Lemma rx_repeat_spec (cls : N -> bool) (hi lo : nat) (s r : ustring) :
  In r (rx_repeat cls lo hi s)
  <-> exists block,
        s = block ++ r
        /\ forallb cls block = true
        /\ (lo <= List.length block <= hi)%nat.
Proof.
  revert lo s. induction hi as [|hi IH]; intros lo s; cbn [rx_repeat].
  - destruct lo; split.
    + intros [<- | []]. exists []. repeat split; auto.
    + intros [[|c block] [-> [_ Hlen]]]; [now left|]. simpl in Hlen. lia.
    + intros [].
    + intros [block [_ [_ Hlen]]]. lia.
  - rewrite in_app_iff. split.
    + intros [H | H].
      * destruct s as [|c rest]; [destruct H|].
        destruct (cls c) eqn:Hc; [|destruct H].
        apply IH in H as [block [-> [Hall Hlen]]].
        exists (c :: block). cbn [forallb List.length app]. rewrite Hc, Hall.
        repeat split; auto; lia.
      * destruct lo; [|destruct H]. destruct H as [<- | []].
        exists []. repeat split; auto. simpl. lia.
    + intros [[|c block] [-> [Hall Hlen]]].
      * right. simpl in Hlen. destruct lo; [now left | lia].
      * left. cbn [forallb] in Hall. apply andb_true_iff in Hall as [Hc Hall].
        cbn [app]. rewrite Hc. apply IH. exists block.
        repeat split; auto; simpl in Hlen; lia.
Qed.

Lemma rx_seq_spec (items : list rx_item) (s r : ustring) :
  In r (rx_seq items s) <-> rx_splits items s r.
Proof.
  revert s. induction items as [|it rest IH]; intros s;
    cbn [rx_seq rx_splits].
  - split; [intros [H | []]; exact H | intros ->; now left].
  - rewrite in_flat_map. split.
    + intros [tail [Hrep Hrest]].
      apply rx_repeat_spec in Hrep as [block [-> [Hall Hlen]]].
      exists block, tail. repeat split; auto; try lia. now apply IH.
    + intros [block [tail [-> [Hall [Hlen Hrest]]]]].
      exists tail. split; [|now apply IH].
      apply rx_repeat_spec. exists block. repeat split; auto; lia.
Qed.

Lemma re_match_spec (items : list rx_item) (s : ustring) :
  re_match items s = true
  <-> exists r, rx_splits items s r /\ (r = [] \/ r = [10]).
Proof.
  unfold re_match. rewrite existsb_exists. split.
  - intros [r [Hin Hend]]. exists r. split; [now apply rx_seq_spec|].
    destruct r as [|c [|c' r]]; simpl in Hend; try discriminate; auto.
    apply N.eqb_eq in Hend. subst. now right.
  - intros [r [Hsplit Hend]]. exists r. split; [now apply rx_seq_spec|].
    destruct Hend as [-> | ->]; reflexivity.
Qed.

(** *** Plates *)

Ltac classes :=
  unfold up, is_letter, is_AZ, is_az, is_09, is_ascii in *;
  repeat match goal with
         | H : context [?a <=? ?b] |- _ => destruct (N.leb_spec a b)
         | |- context [?a <=? ?b] => destruct (N.leb_spec a b)
         | H : context [?a <? ?b] |- _ => destruct (N.ltb_spec a b)
         | |- context [?a <? ?b] => destruct (N.ltb_spec a b)
         end;
  cbn [andb orb] in *; try reflexivity; try discriminate; try lia.

Lemma up_letter (c : N) : is_AZ (up c) = is_letter c.
Proof. classes. Qed.

Lemma up_digit (c : N) : is_09 (up c) = is_09 c.
Proof. classes. Qed.

Lemma up_newline (c : N) : up c = 10 -> c = 10.
Proof. classes. Qed.

Lemma letter_ascii (c : N) : is_letter c = true -> is_ascii c = true.
Proof. classes. Qed.

Lemma digit_ascii (c : N) : is_09 c = true -> is_ascii c = true.
Proof. classes. Qed.

Lemma forallb_map_up (cls cls' : N -> bool) (s : ustring) :
  (forall c, cls (up c) = cls' c) ->
  forallb cls (map up s) = forallb cls' s.
Proof.
  intros H. induction s as [|c s IH]; [reflexivity|].
  cbn [map forallb]. now rewrite H, IH.
Qed.

Lemma forallb_weaken (cls cls' : N -> bool) (s : ustring) :
  (forall c, cls c = true -> cls' c = true) ->
  forallb cls s = true -> forallb cls' s = true.
Proof.
  intros H. rewrite !forallb_forall. auto.
Qed.

Section ValidationFacts.
Context {rt : PyRuntime}.

(** On ASCII text [upper()] works character by character and keeps the
    length. *)
Lemma py_upper_ascii (s : ustring) :
  forallb is_ascii s = true -> py_upper s = map up s.
Proof.
  induction s as [|c s IH]; [reflexivity|].
  cbn [forallb]. intros H. apply andb_true_iff in H as [Hc Hs].
  unfold py_upper in *. cbn [flat_map map]. rewrite (IH Hs).
  unfold upper_cp, up. rewrite Hc. now destruct (is_az c).
Qed.

Lemma plate_ascii (s : ustring) : plate s -> forallb is_ascii s = true.
Proof.
  intros (l1 & d1 & l2 & d2 & -> & H1 & _ & H2 & _ & H3 & _ & H4 & _).
  rewrite !forallb_app.
  rewrite (forallb_weaken _ _ l1 letter_ascii H1).
  rewrite (forallb_weaken _ _ d1 digit_ascii H2).
  rewrite (forallb_weaken _ _ l2 letter_ascii H3).
  now rewrite (forallb_weaken _ _ d2 digit_ascii H4).
Qed.

Lemma plate_splits (s r : ustring) :
  plate s -> rx_splits pattern (map up (s ++ r)) (map up r).
Proof.
  intros (l1 & d1 & l2 & d2 & -> & H1 & L1 & H2 & L2 & H3 & L3 & H4 & L4).
  rewrite <- !app_assoc, !map_app. cbn [pattern rx_splits].
  exists (map up l1), (map up d1 ++ map up l2 ++ map up d2 ++ map up r).
  split; [reflexivity|]. cbn [rx_class rx_min rx_max].
  rewrite (forallb_map_up _ _ l1 up_letter), length_map.
  repeat split; auto; try lia.
  exists (map up d1), (map up l2 ++ map up d2 ++ map up r).
  split; [reflexivity|]. cbn [rx_class rx_min rx_max].
  rewrite (forallb_map_up _ _ d1 up_digit), length_map.
  repeat split; auto; try lia.
  exists (map up l2), (map up d2 ++ map up r).
  split; [reflexivity|]. cbn [rx_class rx_min rx_max].
  rewrite (forallb_map_up _ _ l2 up_letter), length_map.
  repeat split; auto; try lia.
  exists (map up d2), (map up r).
  split; [reflexivity|]. cbn [rx_class rx_min rx_max].
  rewrite (forallb_map_up _ _ d2 up_digit), length_map.
  repeat split; auto; lia.
Qed.

(** The part of C2 that the code keeps: every plate, in either letter
    case, is accepted. *)
Lemma validate_vehicle_number_accepts_plates (s : ustring) :
  plate s -> validate_vehicle_number s = true.
Proof.
  intros H. unfold validate_vehicle_number.
  rewrite (py_upper_ascii s (plate_ascii s H)).
  apply re_match_spec. exists []. split; [|now left].
  pose proof (plate_splits s [] H) as Hs. now rewrite app_nil_r in Hs.
Qed.

(** On ASCII text the validator accepts the plates, the plates followed
    by one newline, and nothing else. *)
Lemma validate_vehicle_number_ascii (s : ustring) :
  forallb is_ascii s = true ->
  validate_vehicle_number s = true
  <-> plate s \/ exists p, s = p ++ [10] /\ plate p.
Proof.
  intros Hascii. unfold validate_vehicle_number.
  rewrite (py_upper_ascii s Hascii), re_match_spec. split.
  - intros [r [Hsplit Hend]]. cbn [pattern rx_splits] in Hsplit.
    destruct Hsplit as (b1 & t1 & E1 & C1 & N1 & b2 & t2 & E2 & C2 & N2
                        & b3 & t3 & E3 & C3 & N3 & b4 & t4 & E4 & C4 & N4 & E5).
    cbn [rx_class rx_min rx_max] in *. subst t4 t3 t2 t1.
    apply map_eq_app in E1 as (l1 & s1 & -> & <- & E1).
    apply map_eq_app in E1 as (d1 & s2 & -> & <- & E1).
    apply map_eq_app in E1 as (l2 & s3 & -> & <- & E1).
    apply map_eq_app in E1 as (d2 & t & -> & <- & E1).
    rewrite (forallb_map_up _ _ l1 up_letter) in C1.
    rewrite (forallb_map_up _ _ d1 up_digit) in C2.
    rewrite (forallb_map_up _ _ l2 up_letter) in C3.
    rewrite (forallb_map_up _ _ d2 up_digit) in C4.
    rewrite length_map in N1, N2, N3, N4.
    assert (Hp : plate (l1 ++ d1 ++ l2 ++ d2)).
    { exists l1, d1, l2, d2. repeat split; auto; lia. }
    destruct Hend as [-> | ->].
    + left. destruct t; [|discriminate E1]. now rewrite app_nil_r.
    + right. exists (l1 ++ d1 ++ l2 ++ d2). split; [|exact Hp].
      destruct t as [|c [|c' t]]; try discriminate E1.
      injection E1 as E1. apply up_newline in E1. subst c.
      now rewrite <- !app_assoc.
  - intros [Hp | [p [-> Hp]]].
    + exists []. split; [|now left].
      pose proof (plate_splits s [] Hp) as Hs. now rewrite app_nil_r in Hs.
    + exists [10]. split; [|now right]. exact (plate_splits p [10] Hp).
Qed.

End ValidationFacts.

(** C2, evaluated where the code departs from it.  [$] also matches
    before a newline that ends the string, and [upper()] is applied
    before the match: a plate followed by a newline is accepted, and so
    is a nine-character string whose first character is U+00DF, which
    [upper()] turns into the two letters [SS]. *)
Theorem validate_vehicle_number_accepts_more :
  (forall rt : PyRuntime,
     validate_vehicle_number (U "PB65AM0008" ++ [10]) = true)
  /\ py_upper (rt := runtime_excerpt) (U "ß65am0008") = U "SS65AM0008"
  /\ validate_vehicle_number (rt := runtime_excerpt) (U "ß65am0008") = true.
Proof.
  split; [intros rt|split]; vm_compute; reflexivity.
Qed.

(** ** Main flow *)

(** Runs the monadic structure of a flow and nothing else, so that the
    literals and the calls stay as the source writes them. *)
Ltac py_run :=
  cbn [bind ret raise emit print lift Ok Raise try_except is_Exception
       app negb andb orb fst snd].

Ltac find_event := repeat first [left; reflexivity | right].

Lemma ueqb_sym (a b : ustring) : ueqb a b = ueqb b a.
Proof.
  destruct (ueqb b a) eqn:E.
  - apply ueqb_eq in E. subst. apply ueqb_refl.
  - apply ueqb_neq. apply ueqb_neq in E. congruence.
Qed.

(** Without a save flag among the arguments, removing the flags changes
    nothing: [main] works on the arguments that are not flags. *)
Lemma positional_arguments (args : list ustring) :
  (if str_in (U "-s") args || str_in (U "--save") args
   then filter (fun arg => negb (is_save_flag arg)) args
   else args)
  = filter (fun arg => negb (is_save_flag arg)) args.
Proof.
  destruct (str_in (U "-s") args || str_in (U "--save") args) eqn:E;
    [reflexivity|].
  apply orb_false_iff in E as [Hs Hsave]. unfold str_in in Hs, Hsave.
  induction args as [|a args IH]; [reflexivity|].
  cbn [existsb] in Hs, Hsave.
  apply orb_false_iff in Hs as [Hs1 Hs2].
  apply orb_false_iff in Hsave as [Hsave1 Hsave2].
  cbn [filter]. unfold is_save_flag at 1.
  rewrite (ueqb_sym a), Hs1, (ueqb_sym a), Hsave1. cbn [orb negb].
  f_equal. now apply IH.
Qed.

Section MainFacts.
Context {rt : PyRuntime}.

Lemma valid_not_flag (arg flag : ustring) :
  validate_vehicle_number (py_strip flag) = false ->
  validate_vehicle_number (py_strip arg) = true ->
  ueqb flag arg = false.
Proof.
  intros Hflag Harg. apply ueqb_neq. intros ->. congruence.
Qed.

Lemma single_argument_no_flag (arg : ustring) :
  validate_vehicle_number (py_strip arg) = true ->
  str_in (U "-s") [arg] || str_in (U "--save") [arg] = false.
Proof.
  intros H. unfold str_in, existsb.
  rewrite (valid_not_flag arg (U "-s")), (valid_not_flag arg (U "--save"));
    auto.
Qed.

(** An identifier that fails validation stops the run before the
    provider is called, with status 1: the part of C7 that the code
    keeps. *)
Lemma main_invalid_identifier (w : world) (vehicle_no : ustring) :
  identifier w = Some vehicle_no ->
  validate_vehicle_number vehicle_no = false ->
  exit_status (snd (main w)) = 1%Z
  /\ existsb is_network_call (fst (main w)) = false.
Proof.
  intros Hid Hinvalid. unfold main.
  destruct (py_truthy (opt_str (rapidapi_key w))).
  2:{ unfold show_banner. py_run. split; reflexivity. }
  rewrite positional_arguments. unfold identifier in Hid.
  destruct (filter _ (argv w)) as [|arg rest].
  - destruct (stdin_line w) as [line|] eqn:Hline; [|discriminate Hid].
    injection Hid as <-.
    unfold show_banner, input. rewrite Hline. py_run.
    rewrite Hinvalid. py_run. split; reflexivity.
  - injection Hid as <-.
    unfold show_banner. py_run. rewrite Hinvalid. py_run.
    split; reflexivity.
Qed.

(** A missing credential stops the run in the same way. *)
Lemma main_missing_credential (w : world) :
  py_truthy (opt_str (rapidapi_key w)) = false ->
  exit_status (snd (main w)) = 1%Z
  /\ existsb is_network_call (fst (main w)) = false.
Proof.
  intros H. unfold main. rewrite H. unfold show_banner. py_run.
  split; reflexivity.
Qed.

(** The provider call never raises: whatever the network does, it
    returns a value after one request. *)
Lemma fetch_from_api_returns (w : world) (vehicle_no : ustring) :
  exists raw,
    fetch_from_api w vehicle_no
    = ([HttpsPost RAPIDAPI_HOST API_ENDPOINT
          (PDict [(U "vehicle_number", PStr vehicle_no)]) (request_headers w)],
       Ok raw).
Proof.
  unfold fetch_from_api. py_run.
  destruct (provider w _) as [msg | status [msg | text [msg | v]]];
    try destruct (Z.eqb status 200); py_run; eexists; reflexivity.
Qed.

(** Where the second half of C7 holds and where it does not: for a
    valid identifier given as the only argument, the run ends with
    status 0 unless the normalised record is true without being a
    dictionary. *)
Lemma main_single_argument_status (w : world) (arg : ustring) :
  py_truthy (opt_str (rapidapi_key w)) = true ->
  argv w = [arg] ->
  validate_vehicle_number (py_strip arg) = true ->
  exists raw record reason,
    snd (fetch_from_api w (py_strip arg)) = Ok raw
    /\ extract_vehicle_data raw = Ok (record, reason)
    /\ exit_status (snd (main w))
       = (if py_truthy record
          then match record with PDict _ => 0 | _ => 1 end
          else 0)%Z.
Proof.
  intros Hkey Hargv Hvalid.
  destruct (fetch_from_api_returns w (py_strip arg)) as [raw Hfetch].
  destruct (extract_vehicle_data_returns raw) as [record [reason Hextract]].
  exists raw, record, reason.
  split; [now rewrite Hfetch|]. split; [exact Hextract|].
  unfold main. rewrite Hkey, Hargv, (single_argument_no_flag arg Hvalid).
  unfold show_banner. py_run. rewrite Hvalid. py_run.
  rewrite Hfetch. py_run. rewrite Hextract. py_run.
  destruct (py_truthy record).
  - destruct record; reflexivity.
  - py_run. destruct (py_eq_str reason _); reflexivity.
Qed.

End MainFacts.

(** C10.  When the provider's reply is normalised to a success whose
    record is an empty mapping, [main] does not present it: the
    truthiness test sends the run to the fallback, which prints the
    API-issue message with reason [None], announces the fallback and
    presents the placeholder record under the label "Demo"; the run
    ends normally. *)
Theorem main_empty_record_falls_back
  {rt : PyRuntime} (w : world) (arg body : ustring) (raw : pyval) :
  py_truthy (opt_str (rapidapi_key w)) = true ->
  argv w = [arg] ->
  validate_vehicle_number (py_strip arg) = true ->
  provider w (PDict [(U "vehicle_number", PStr (py_strip arg))])
  = Replied 200 (Text body (inr raw)) ->
  extract_vehicle_data raw = Ok (PDict [], PNone) ->
  exists demo_text,
    format_vehicle_text (demo_data (py_strip arg)) (U "Demo") = Ok demo_text
    /\ main w =
       (fst show_banner ++
        [Print ([10] ++ U "🔎 Fetching details for " ++ ESC ++ U "[1;33m"
                ++ py_upper (py_strip arg) ++ ESC ++ U "[0m...");
         Print (U "🌐 Using live API...");
         HttpsPost RAPIDAPI_HOST API_ENDPOINT
           (PDict [(U "vehicle_number", PStr (py_strip arg))])
           (request_headers w);
         Print (ESC ++ U "[1;33m⚠️  API issue: None" ++ ESC ++ U "[0m");
         Print ([10] ++ U "🔄 Falling back to demo data...");
         Print ([10] ++ demo_text)],
        Ok tt).
Proof.
  intros Hkey Hargv Hvalid Hprov Hextract.
  eexists. split; [reflexivity|].
  unfold main. rewrite Hkey, Hargv.
  rewrite (single_argument_no_flag arg Hvalid).
  unfold show_banner. py_run. rewrite Hvalid. py_run.
  unfold fetch_from_api. py_run. rewrite Hprov.
  change (Z.eqb 200 200) with true. cbv iota. py_run.
  rewrite Hextract. py_run. cbn [py_truthy py_eq_str py_str]. py_run.
  reflexivity.
Qed.

Lemma main_empty_record_falls_back_witness :
  py_truthy (opt_str (rapidapi_key empty_record_world)) = true
  /\ argv empty_record_world = [U "PB65AM0008"]
  /\ validate_vehicle_number (rt := runtime_excerpt)
       (py_strip (U "PB65AM0008")) = true
  /\ provider empty_record_world
       (PDict [(U "vehicle_number", PStr (py_strip (U "PB65AM0008")))])
     = Replied 200 (Text (json_text "{'status': 'success', 'response': {}}")
                         (inr empty_record_envelope))
  /\ extract_vehicle_data empty_record_envelope = Ok (PDict [], PNone)
  /\ exists demo_text,
       format_vehicle_text (rt := runtime_excerpt)
         (demo_data (rt := runtime_excerpt) (py_strip (U "PB65AM0008")))
         (U "Demo") = Ok demo_text
       /\ main (rt := runtime_excerpt) empty_record_world =
          (fst show_banner ++
           [Print ([10] ++ U "🔎 Fetching details for " ++ ESC ++ U "[1;33m"
                   ++ py_upper (rt := runtime_excerpt)
                        (py_strip (U "PB65AM0008"))
                   ++ ESC ++ U "[0m...");
            Print (U "🌐 Using live API...");
            HttpsPost RAPIDAPI_HOST API_ENDPOINT
              (PDict [(U "vehicle_number", PStr (py_strip (U "PB65AM0008")))])
              (request_headers empty_record_world);
            Print (ESC ++ U "[1;33m⚠️  API issue: None" ++ ESC ++ U "[0m");
            Print ([10] ++ U "🔄 Falling back to demo data...");
            Print ([10] ++ demo_text)],
           Ok tt).
Proof.
  repeat (split; [reflexivity|]).
  apply (main_empty_record_falls_back (rt := runtime_excerpt)
           empty_record_world (U "PB65AM0008")
           (json_text "{'status': 'success', 'response': {}}")
           empty_record_envelope); reflexivity.
Defined.

(** C9, as the specification states it, fails: in scenario A nothing the
    program prints contains the quoted line, not even as part of a
    longer line.  The presenter indents each field by two spaces and
    pads the label to 25 columns, which puts fifteen spaces, not
    fourteen, between "Owner Name" and the colon. *)
Lemma scenario_A_lacks_quoted_line :
  forallb (fun ev => match ev with
                     | Print text => negb (contains quoted_owner_line text)
                     | _ => true
                     end)
          (fst (main (rt := runtime_excerpt) scenario_A)) = true.
Proof. vm_compute. reflexivity. Qed.

(** C9 (amended).  For the input [pb65am0008], when the provider
    answers with the success envelope around
    [{"owner_name": "JOHN DOE", "license_plate": "PB65AM0008"}], the run
    prints the banner, the two progress lines, and then one report whose
    title line carries the provenance label "Live API" and whose field
    lines are ["  Owner Name               : JOHN DOE"] (two spaces, the
    label left-aligned in 25 columns, a colon, the value) and the
    registration number; it ends normally. *)
Theorem main_scenario_A {rt : PyRuntime} (w : world) :
  py_truthy (opt_str (rapidapi_key w)) = true ->
  argv w = [U "pb65am0008"] ->
  provider w (PDict [(U "vehicle_number", PStr (U "pb65am0008"))])
  = scenario_A_reply ->
  main w =
  (fst show_banner ++
   [Print ([10] ++ U "🔎 Fetching details for " ++ ESC ++ U "[1;33m"
           ++ U "PB65AM0008" ++ ESC ++ U "[0m...");
    Print (U "🌐 Using live API...");
    HttpsPost RAPIDAPI_HOST API_ENDPOINT
      (PDict [(U "vehicle_number", PStr (U "pb65am0008"))])
      (request_headers w);
    Print ([10] ++ join [10]
             [times 9552 56;
              U "🔍 VEHICLE DETAILS [Source: Live API]";
              times 9552 56;
              U "  Owner Name               : JOHN DOE";
              U "  Registration No          : PB65AM0008";
              times 9552 56])],
   Ok tt).
Proof.
  intros Hkey Hargv Hprov.
  unfold main. rewrite Hkey, Hargv.
  change (str_in (U "-s") [U "pb65am0008"]
          || str_in (U "--save") [U "pb65am0008"]) with false.
  unfold show_banner. py_run.
  change (py_strip (U "pb65am0008")) with (U "pb65am0008").
  change (validate_vehicle_number (U "pb65am0008")) with true. py_run.
  unfold fetch_from_api. py_run. rewrite Hprov. reflexivity.
Qed.

Lemma main_scenario_A_witness :
  py_truthy (opt_str (rapidapi_key scenario_A)) = true
  /\ argv scenario_A = [U "pb65am0008"]
  /\ provider scenario_A (PDict [(U "vehicle_number", PStr (U "pb65am0008"))])
     = scenario_A_reply
  /\ main (rt := runtime_excerpt) scenario_A =
     (fst show_banner ++
      [Print ([10] ++ U "🔎 Fetching details for " ++ ESC ++ U "[1;33m"
              ++ U "PB65AM0008" ++ ESC ++ U "[0m...");
       Print (U "🌐 Using live API...");
       HttpsPost RAPIDAPI_HOST API_ENDPOINT
         (PDict [(U "vehicle_number", PStr (U "pb65am0008"))])
         (request_headers scenario_A);
       Print ([10] ++ join [10]
                [times 9552 56;
                 U "🔍 VEHICLE DETAILS [Source: Live API]";
                 times 9552 56;
                 U "  Owner Name               : JOHN DOE";
                 U "  Registration No          : PB65AM0008";
                 times 9552 56])],
      Ok tt).
Proof.
  repeat (split; [reflexivity|]).
  apply (main_scenario_A (rt := runtime_excerpt) scenario_A); reflexivity.
Defined.

(** C6, evaluated where the code departs from it.  For the arguments
    [pb65am0008 --save] the identifier is accepted and its upper-case
    form is [PB65AM0008], yet the request body and the name of the
    report file carry the identifier as it was typed. *)
Theorem main_uses_identifier_as_typed {rt : PyRuntime} :
  validate_vehicle_number (U "pb65am0008") = true
  /\ py_upper (U "pb65am0008") = U "PB65AM0008"
  /\ In (HttpsPost RAPIDAPI_HOST API_ENDPOINT
           (PDict [(U "vehicle_number", PStr (U "pb65am0008"))])
           (request_headers lower_case_save_world))
        (fst (main lower_case_save_world))
  /\ (exists content,
        In (WriteFile (U "reports/vehicle_pb65am0008_20260101_120000.txt")
              content)
           (fst (main lower_case_save_world)))
  /\ snd (main lower_case_save_world) = Ok tt.
Proof.
  split; [vm_compute; reflexivity|]. split; [vm_compute; reflexivity|].
  split; [|split].
  - vm_compute. find_event.
  - eexists. vm_compute. find_event.
  - vm_compute. reflexivity.
Qed.

(** C7, evaluated where the code departs from it.  With the credential
    present and a valid identifier, a reply whose [response] field is a
    string is normalised to that string as the record; the record is
    true, so [main] hands it to the presenter, whose [.items()] raises:
    the exception is not caught and the process ends with status 1. *)
Theorem main_crashes_on_message_record {rt : PyRuntime} :
  py_truthy (opt_str (rapidapi_key message_world)) = true
  /\ identifier message_world = Some (U "PB65AM0008")
  /\ validate_vehicle_number (U "PB65AM0008") = true
  /\ extract_vehicle_data message_envelope
     = Ok (PStr (U "No record found"), PNone)
  /\ snd (main message_world)
     = Raise (Exception (U "AttributeError")
                (U "'str' object has no attribute 'items'"))
  /\ exit_status (snd (main message_world)) = 1%Z.
Proof. repeat (split; [vm_compute; reflexivity|]). vm_compute. reflexivity. Qed.

(** ** Report writer *)

(** C8, evaluated where the code departs from it.  [os.makedirs] stands
    before the [try]: when the report directory is absent and cannot be
    created, the error leaves [save_to_file] and nothing is reported. *)
Theorem save_to_file_makedirs_escapes
  (w : world) (vehicle_no content msg : ustring) :
  reports_dir_exists w = false ->
  makedirs_error w REPORTS_DIR = Some msg ->
  save_to_file w vehicle_no content
  = ([MakeDirs REPORTS_DIR], Raise (Exception (U "OSError") msg)).
Proof.
  intros Hdir Herr. unfold save_to_file. now rewrite Hdir, Herr.
Qed.

Lemma save_to_file_makedirs_escapes_witness :
  reports_dir_exists read_only_world = false
  /\ makedirs_error read_only_world REPORTS_DIR
     = Some (U "[Errno 13] Permission denied: 'reports'")
  /\ save_to_file read_only_world (U "PB65AM0008") (U "report")
     = ([MakeDirs REPORTS_DIR],
        Raise (Exception (U "OSError")
                 (U "[Errno 13] Permission denied: 'reports'"))).
Proof.
  repeat (split; [reflexivity|]).
  apply (save_to_file_makedirs_escapes read_only_world); reflexivity.
Defined.

(** Past the directory, the writer keeps what C8 says: a failing write
    is reported and [save_to_file] returns. *)
Lemma save_to_file_write_error_reported
  (w : world) (vehicle_no content : ustring) :
  reports_dir_exists w = true \/ makedirs_error w REPORTS_DIR = None ->
  snd (save_to_file w vehicle_no content) = Ok tt
  /\ forall msg,
       write_error w
         (os_path_join REPORTS_DIR
            (U "vehicle_" ++ vehicle_no ++ U "_" ++ now_stamp w ++ U ".txt"))
         content = Some msg ->
       In (Print (U "❌ Failed to save file: " ++ msg))
          (fst (save_to_file w vehicle_no content)).
Proof.
  intros H. unfold save_to_file.
  set (filepath := os_path_join REPORTS_DIR _).
  destruct (reports_dir_exists w); cbn [negb];
    [|destruct H as [H | H]; [discriminate H | rewrite H]];
    py_run;
    (destruct (write_error w filepath content) as [msg|]; py_run;
     (split; [reflexivity|]); intros m Hm;
     [injection Hm as <-; cbn [str_exn]; find_event | discriminate Hm]).
Qed.

(** At the level of the program: with [--save], a report directory that
    cannot be created ends the run with status 1, after the report was
    displayed. *)
Lemma main_crashes_when_directory_cannot_be_created {rt : PyRuntime} :
  snd (main read_only_world)
  = Raise (Exception (U "OSError")
             (U "[Errno 13] Permission denied: 'reports'"))
  /\ exit_status (snd (main read_only_world)) = 1%Z.
Proof. split; vm_compute; reflexivity. Qed.

(** * Further properties *)

(** ** Response parser: the remaining branches *)

(** X1.  A dictionary without an [error] key that is not a success
    envelope with a [response] field, and that holds [license_plate] or
    [owner_name], is itself the record. *)
Theorem extract_vehicle_data_flat_record (d : pydict) :
  dict_contains d (U "error") = false ->
  py_eq_str (dict_get d (U "status")) (U "success")
  && dict_contains d (U "response") = false ->
  dict_contains d (U "license_plate") || dict_contains d (U "owner_name")
  = true ->
  extract_vehicle_data (PDict d) = Ok (PDict d, PNone).
Proof.
  intros Herr Henv Hrec. unfold extract_vehicle_data.
  now rewrite Herr, Henv, Hrec.
Qed.

Lemma extract_vehicle_data_flat_record_witness :
  dict_contains [(U "status", PStr (U "success"));
                 (U "owner_name", PStr (U "JOHN DOE"))] (U "error") = false
  /\ py_eq_str (dict_get [(U "status", PStr (U "success"));
                          (U "owner_name", PStr (U "JOHN DOE"))] (U "status"))
               (U "success")
     && dict_contains [(U "status", PStr (U "success"));
                       (U "owner_name", PStr (U "JOHN DOE"))] (U "response")
     = false
  /\ dict_contains [(U "status", PStr (U "success"));
                    (U "owner_name", PStr (U "JOHN DOE"))] (U "license_plate")
     || dict_contains [(U "status", PStr (U "success"));
                       (U "owner_name", PStr (U "JOHN DOE"))] (U "owner_name")
     = true
  /\ extract_vehicle_data
       (PDict [(U "status", PStr (U "success"));
               (U "owner_name", PStr (U "JOHN DOE"))])
     = Ok (PDict [(U "status", PStr (U "success"));
                  (U "owner_name", PStr (U "JOHN DOE"))], PNone).
Proof.
  repeat (split; [reflexivity|]).
  apply (extract_vehicle_data_flat_record
           [(U "status", PStr (U "success"));
            (U "owner_name", PStr (U "JOHN DOE"))]); reflexivity.
Defined.

(** X2.  A dictionary that holds none of [error], [license_plate] and
    [owner_name], and is not a success envelope with a [response]
    field, is rejected with the reason "Unknown response format"; this
    includes a dictionary whose [status] is "success" but which has no
    [response]. *)
Theorem extract_vehicle_data_unknown_format (d : pydict) :
  dict_contains d (U "error") = false ->
  py_eq_str (dict_get d (U "status")) (U "success")
  && dict_contains d (U "response") = false ->
  dict_contains d (U "license_plate") = false ->
  dict_contains d (U "owner_name") = false ->
  extract_vehicle_data (PDict d)
  = Ok (PNone, PStr (U "Unknown response format")).
Proof.
  intros Herr Henv Hplate Howner. unfold extract_vehicle_data.
  now rewrite Herr, Henv, Hplate, Howner.
Qed.

Lemma extract_vehicle_data_unknown_format_witness :
  dict_contains [(U "status", PStr (U "success"))] (U "error") = false
  /\ py_eq_str (dict_get [(U "status", PStr (U "success"))] (U "status"))
               (U "success")
     && dict_contains [(U "status", PStr (U "success"))] (U "response") = false
  /\ dict_contains [(U "status", PStr (U "success"))] (U "license_plate")
     = false
  /\ dict_contains [(U "status", PStr (U "success"))] (U "owner_name") = false
  /\ extract_vehicle_data (PDict [(U "status", PStr (U "success"))])
     = Ok (PNone, PStr (U "Unknown response format")).
Proof.
  repeat (split; [reflexivity|]).
  apply (extract_vehicle_data_unknown_format [(U "status", PStr (U "success"))]);
    reflexivity.
Defined.

(** X3.  Where a record comes from: when the parser returns a record
    that is not [None], the response is a dictionary without an [error]
    key, the failure reason is [None], and the record is either the
    value of [response] in a success envelope or the response itself,
    which then holds [license_plate] or [owner_name].  In particular a
    list, a string or a number is never normalised to a record. *)
Theorem extract_vehicle_data_record_origin (raw record reason : pyval) :
  extract_vehicle_data raw = Ok (record, reason) ->
  record <> PNone ->
  reason = PNone
  /\ exists d,
       raw = PDict d
       /\ dict_contains d (U "error") = false
       /\ ((dict_get d (U "status") = PStr (U "success")
            /\ dict_lookup d (U "response") = Some record)
           \/ (record = raw
               /\ dict_contains d (U "license_plate")
                  || dict_contains d (U "owner_name") = true)).
Proof.
  intros H Hrec.
  destruct raw as [| b | i | f | s | xs | d];
    try (injection H as <- _; contradiction).
  unfold extract_vehicle_data, dict_getitem in H.
  destruct (dict_contains d (U "error")) eqn:Herr.
  { destruct (dict_lookup d (U "error")); [|discriminate H].
    injection H as <- _. contradiction. }
  destruct (py_eq_str (dict_get d (U "status")) (U "success")) eqn:Hst;
    cbn [andb] in H.
  - destruct (dict_contains d (U "response")) eqn:Hresp.
    + destruct (dict_lookup d (U "response")) as [r|] eqn:Hr;
        [|discriminate H].
      injection H as <- <-. split; [reflexivity|]. exists d.
      repeat split; auto. left. split; [|exact Hr].
      now apply py_eq_str_true.
    + destruct (_ || _) eqn:Hflat; injection H as <- <-;
        [|contradiction].
      split; [reflexivity|]. exists d. repeat split; auto.
  - destruct (_ || _) eqn:Hflat; injection H as <- <-; [|contradiction].
    split; [reflexivity|]. exists d. repeat split; auto.
Qed.

Lemma extract_vehicle_data_record_origin_witness :
  extract_vehicle_data (PDict success_envelope)
  = Ok (PDict [(U "owner_name", PStr (U "JOHN DOE"));
               (U "license_plate", PStr (U "PB65AM0008"))], PNone)
  /\ PDict [(U "owner_name", PStr (U "JOHN DOE"));
            (U "license_plate", PStr (U "PB65AM0008"))] <> PNone
  /\ PNone = PNone
  /\ exists d,
       PDict success_envelope = PDict d
       /\ dict_contains d (U "error") = false
       /\ ((dict_get d (U "status") = PStr (U "success")
            /\ dict_lookup d (U "response")
               = Some (PDict [(U "owner_name", PStr (U "JOHN DOE"));
                              (U "license_plate", PStr (U "PB65AM0008"))]))
           \/ (PDict [(U "owner_name", PStr (U "JOHN DOE"));
                      (U "license_plate", PStr (U "PB65AM0008"))]
               = PDict success_envelope
               /\ dict_contains d (U "license_plate")
                  || dict_contains d (U "owner_name") = true)).
Proof.
  split; [reflexivity|]. split; [discriminate|].
  apply (extract_vehicle_data_record_origin (PDict success_envelope));
    [reflexivity | discriminate].
Defined.

(** ** Display: what is shown, and where *)

Lemma py_in_other_types (value : pyval) :
  match value with PNone | PStr _ => False | _ => True end ->
  py_in value skipped_values = false.
Proof. destruct value; intros H; try reflexivity; destruct H. Qed.

(** X4.  The field lines of a report are the lines of the fields that
    are not skipped, one line per field, in the order of the record;
    with the three header lines and the closing rule the report has
    four lines more than the record has fields to show. *)
Theorem format_vehicle_lines_kept
  {rt : PyRuntime} (items : pydict) (source : ustring) :
  let shown :=
    filter (fun kv => negb (str_in (fst kv) skipped_keys)
                      && negb (py_in (snd kv) skipped_values)) items in
  format_vehicle_lines items source
  = [times 9552 56;
     U "🔍 VEHICLE DETAILS [Source: " ++ source ++ U "]";
     times 9552 56]
    ++ map (fun kv => field_line (fst kv) (snd kv)) shown
    ++ [times 9552 56]
  /\ List.length (format_vehicle_lines items source)
     = (4 + List.length shown)%nat.
Proof.
  intros shown. unfold format_vehicle_lines.
  rewrite field_lines_filter. fold shown. split; [reflexivity|].
  rewrite !length_app, length_map. cbn [List.length]. lia.
Qed.

(** X5.  Only [None] and the four strings count as absent.  A number, a
    boolean, a list or a dictionary is shown whatever it is, [0],
    [False] and the empty containers included, unless its key is a
    bookkeeping key: the field gets its line at its place. *)
Theorem field_lines_shows_other_types
  {rt : PyRuntime} (before after : pydict) (key : ustring) (value : pyval) :
  ~ In key skipped_keys ->
  match value with PNone | PStr _ => False | _ => True end ->
  field_lines (before ++ (key, value) :: after)
  = field_lines before ++ field_line key value :: field_lines after.
Proof.
  intros Hkey Hvalue. rewrite field_lines_app. f_equal.
  cbn [field_lines].
  destruct (str_in key skipped_keys) eqn:E.
  { apply str_in_In in E. contradiction. }
  now rewrite (py_in_other_types value Hvalue).
Qed.

Lemma field_lines_shows_other_types_witness :
  ~ In (U "owner_count") skipped_keys
  /\ match PInt 0 with PNone | PStr _ => False | _ => True end
  /\ field_lines (rt := runtime_excerpt)
       ([(U "owner_name", PStr (U "A"))]
        ++ (U "owner_count", PInt 0) :: [(U "is_financed", PBool false)])
     = field_lines (rt := runtime_excerpt) [(U "owner_name", PStr (U "A"))]
       ++ field_line (rt := runtime_excerpt) (U "owner_count") (PInt 0)
          :: field_lines (rt := runtime_excerpt)
               [(U "is_financed", PBool false)].
Proof.
  assert (H : ~ In (U "owner_count") skipped_keys).
  { intros H. apply str_in_In in H. discriminate H. }
  split; [exact H|]. split; [exact I|].
  apply (field_lines_shows_other_types (rt := runtime_excerpt)
           [(U "owner_name", PStr (U "A"))] [(U "is_financed", PBool false)]
           (U "owner_count") (PInt 0) H I).
Defined.

Lemma labels_get_known (table : list (ustring * ustring))
  (key default : ustring) :
  str_in key (map fst table) = true ->
  In (labels_get table key default) (map snd table).
Proof.
  unfold str_in. induction table as [|[k label] rest IH];
    cbn [map fst snd existsb labels_get]; [discriminate|].
  rewrite (ueqb_sym key k). destruct (ueqb k key); cbn [orb].
  - intros _. now left.
  - intros H. right. now apply IH.
Qed.

Lemma skipn_ljust (label value : ustring) :
  (List.length label <= 25)%nat ->
  skipn 29 (U "  " ++ ljust 25 label ++ U ": " ++ value) = value
  /\ nth_error (U "  " ++ ljust 25 label ++ U ": " ++ value) 27 = Some 58.
Proof.
  intros H.
  set (indent := U "  " ++ label ++ repeat 32 (25 - List.length label)%nat).
  assert (L : List.length indent = 27%nat).
  { unfold indent. rewrite !length_app, repeat_length.
    change (List.length (U "  ")) with 2%nat. lia. }
  assert (E : U "  " ++ ljust 25 label ++ U ": " ++ value
              = indent ++ [58; 32] ++ value).
  { unfold indent, ljust. change (U ": ") with [58; 32].
    now rewrite <- !app_assoc. }
  rewrite E. split.
  - rewrite skipn_app, L, skipn_all2 by lia. reflexivity.
  - rewrite nth_error_app2, L by lia. reflexivity.
Qed.

(** X6.  Alignment: for every key of the label table the colon stands
    in the 28th column of the line and the value starts in the 30th,
    whatever the value is. *)
Theorem field_line_aligned
  {rt : PyRuntime} (key : ustring) (value : pyval) :
  str_in key (map fst field_labels) = true ->
  skipn 29 (field_line key value) = py_str value
  /\ nth_error (field_line key value) 27 = Some 58.
Proof.
  intros H. unfold field_line. apply skipn_ljust.
  pose proof (labels_get_known field_labels key
                (py_title (py_replace 95 32 key)) H) as Hin.
  assert (Hall : forallb (fun label => Nat.leb (List.length label) 25)
                   (map snd field_labels) = true)
    by (vm_compute; reflexivity).
  rewrite forallb_forall in Hall. apply Hall in Hin.
  now apply Nat.leb_le in Hin.
Qed.

Lemma field_line_aligned_witness :
  str_in (U "national_permit_upto") (map fst field_labels) = true
  /\ skipn 29 (field_line (rt := runtime_excerpt)
                 (U "national_permit_upto") (PStr (U "31-12-2030")))
     = py_str (rt := runtime_excerpt) (PStr (U "31-12-2030"))
  /\ nth_error (field_line (rt := runtime_excerpt)
                  (U "national_permit_upto") (PStr (U "31-12-2030"))) 27
     = Some 58.
Proof.
  split; [vm_compute; reflexivity|].
  apply (field_line_aligned (rt := runtime_excerpt)
           (U "national_permit_upto") (PStr (U "31-12-2030"))).
  vm_compute. reflexivity.
Defined.

(** ** Validation: what is accepted *)

Section ValidationMore.
Context {rt : PyRuntime}.

Lemma rx_splits_pattern_length (s r : ustring) :
  rx_splits pattern s r ->
  (8 + List.length r <= List.length s <= 10 + List.length r)%nat.
Proof.
  cbn [pattern rx_splits rx_class rx_min rx_max].
  intros (b1 & t1 & -> & _ & N1 & b2 & t2 & -> & _ & N2
          & b3 & t3 & -> & _ & N3 & b4 & t4 & -> & _ & N4 & ->).
  rewrite !length_app. lia.
Qed.

(** A field that is not skipped gets its line. *)
Lemma field_lines_shown (key : ustring) (value : pyval) (rest : pydict) :
  str_in key skipped_keys = false ->
  py_in value skipped_values = false ->
  field_lines ((key, value) :: rest) = field_line key value :: field_lines rest.
Proof. intros Hk Hv. cbn [field_lines]. now rewrite Hk, Hv. Qed.

(** An accepted identifier has an upper-case form of 8 to 11
    characters. *)
Lemma validate_vehicle_number_length (s : ustring) :
  validate_vehicle_number s = true ->
  (8 <= List.length (py_upper s) <= 11)%nat.
Proof.
  unfold validate_vehicle_number. rewrite re_match_spec.
  intros [r [Hsplit Hend]]. apply rx_splits_pattern_length in Hsplit.
  destruct Hend as [-> | ->]; cbn [List.length] in Hsplit; lia.
Qed.

Lemma upper_not_skipped (s : ustring) :
  validate_vehicle_number s = true ->
  py_in (PStr (py_upper s)) skipped_values = false.
Proof.
  intros H. apply validate_vehicle_number_length in H.
  destruct (py_in (PStr (py_upper s)) skipped_values) eqn:E; [|reflexivity].
  apply py_in_skipped_values in E.
  repeat (destruct E as [E | E];
          [try discriminate E; injection E as E; rewrite <- E in H;
           vm_compute in H; lia|]).
  destruct E.
Qed.

End ValidationMore.

(** X7.  On ASCII input the validator accepts exactly the plates (two
    letters, one or two digits, one or two letters, four digits, in
    either case) and the plates followed by one newline. *)
Theorem validate_vehicle_number_on_ascii {rt : PyRuntime} (s : ustring) :
  forallb is_ascii s = true ->
  validate_vehicle_number s = true
  <-> plate s \/ exists p, s = p ++ [10] /\ plate p.
Proof. exact (validate_vehicle_number_ascii s). Qed.

Lemma validate_vehicle_number_on_ascii_witness :
  forallb is_ascii (U "mh2fb2727") = true
  /\ (validate_vehicle_number (rt := runtime_excerpt) (U "mh2fb2727") = true
      <-> plate (U "mh2fb2727")
          \/ exists p, U "mh2fb2727" = p ++ [10] /\ plate p).
Proof.
  split; [reflexivity|].
  apply (validate_vehicle_number_on_ascii (rt := runtime_excerpt)
           (U "mh2fb2727")).
  reflexivity.
Defined.

(** X8.  Letter case does not count: two ASCII strings that differ only
    in the case of their letters get the same verdict. *)
Theorem validate_vehicle_number_ignores_case
  {rt : PyRuntime} (s t : ustring) :
  forallb is_ascii s = true ->
  forallb is_ascii t = true ->
  map up s = map up t ->
  validate_vehicle_number s = validate_vehicle_number t.
Proof.
  intros Hs Ht E. unfold validate_vehicle_number.
  now rewrite (py_upper_ascii s Hs), (py_upper_ascii t Ht), E.
Qed.

Lemma validate_vehicle_number_ignores_case_witness :
  forallb is_ascii (U "Pb65aM0008") = true
  /\ forallb is_ascii (U "pB65Am0008") = true
  /\ map up (U "Pb65aM0008") = map up (U "pB65Am0008")
  /\ validate_vehicle_number (rt := runtime_excerpt) (U "Pb65aM0008")
     = validate_vehicle_number (rt := runtime_excerpt) (U "pB65Am0008").
Proof.
  repeat (split; [reflexivity|]).
  apply (validate_vehicle_number_ignores_case (rt := runtime_excerpt));
    reflexivity.
Defined.

(** ** Demo data *)

(** X9.  For every identifier the validator accepts, the report of the
    placeholder record shows all twelve fields: the registration number
    in upper case first, then the eleven constant fields, the note
    last. *)
Theorem format_vehicle_text_demo_data
  {rt : PyRuntime} (vehicle_no : ustring) :
  validate_vehicle_number vehicle_no = true ->
  format_vehicle_text (demo_data vehicle_no) (U "Demo")
  = Ok (join [10]
    ([times 9552 56;
      U "🔍 VEHICLE DETAILS [Source: Demo]";
      times 9552 56;
      U "  Registration No          : " ++ py_upper vehicle_no;
     U "  Owner Name               : DEMO OWNER";
     U "  Registration Date        : 01-01-2020";
     U "  Vehicle Class            : Motor Car";
     U "  Fuel Type                : Petrol";
     U "  Engine No                : DEMO12345";
     U "  Chassis No               : DEMO67890";
     U "  Model                    : Maruti Suzuki Swift";
     U "  Insurance Upto           : 31-12-2024";
     U "  Fitness Upto             : 31-12-2025";
     U "  RC Status                : Active";
     U "  Note                     : This is demo data – API not used.";
      times 9552 56])).
Proof.
  intros H. unfold format_vehicle_text, demo_data, py_items, Ok.
  cbv beta iota. do 2 f_equal. unfold format_vehicle_lines.
  rewrite field_lines_shown;
    [|vm_compute; reflexivity | exact (upper_not_skipped vehicle_no H)].
  vm_compute. reflexivity.
Qed.

Lemma format_vehicle_text_demo_data_witness :
  validate_vehicle_number (rt := runtime_excerpt) (U "mh02fb2727") = true
  /\ format_vehicle_text (rt := runtime_excerpt)
       (demo_data (rt := runtime_excerpt) (U "mh02fb2727")) (U "Demo")
     = Ok (join [10]
       ([times 9552 56;
         U "🔍 VEHICLE DETAILS [Source: Demo]";
         times 9552 56;
         U "  Registration No          : " ++ py_upper (rt := runtime_excerpt) (U "mh02fb2727");
        U "  Owner Name               : DEMO OWNER";
        U "  Registration Date        : 01-01-2020";
        U "  Vehicle Class            : Motor Car";
        U "  Fuel Type                : Petrol";
        U "  Engine No                : DEMO12345";
        U "  Chassis No               : DEMO67890";
        U "  Model                    : Maruti Suzuki Swift";
        U "  Insurance Upto           : 31-12-2024";
        U "  Fitness Upto             : 31-12-2025";
        U "  RC Status                : Active";
        U "  Note                     : This is demo data – API not used.";
         times 9552 56])).
Proof.
  split; [vm_compute; reflexivity|].
  apply (format_vehicle_text_demo_data (rt := runtime_excerpt)
           (U "mh02fb2727")).
  vm_compute. reflexivity.
Defined.

(** ** API call *)

(** The provider call, exception by exception. *)
Lemma fetch_from_api_cases
  {rt : PyRuntime} (w : world) (vehicle_no : ustring) :
  fetch_from_api w vehicle_no
  = ([HttpsPost RAPIDAPI_HOST API_ENDPOINT
        (PDict [(U "vehicle_number", PStr vehicle_no)]) (request_headers w)],
     Ok match provider w (PDict [(U "vehicle_number", PStr vehicle_no)]) with
        | Failed msg => error_descriptor msg
        | Replied _ (Undecodable msg) => error_descriptor msg
        | Replied status (Text text parsed) =>
            if Z.eqb status 200 then
              match parsed with
              | inl msg => error_descriptor msg
              | inr v => v
              end
            else PDict [(U "error", PStr (U "HTTP " ++ py_str (PInt status)));
                        (U "details", PStr text)]
        end).
Proof.
  unfold fetch_from_api. py_run.
  destruct (provider w _) as [msg | status [msg | text [msg | v]]];
    try destruct (Z.eqb status 200); reflexivity.
Qed.


(** X11.  A reply with a status other than 200 is normalised to a
    failure whose reason is [HTTP] followed by the status, whatever the
    body holds, a well-formed record included. *)
Theorem fetch_from_api_http_error
  {rt : PyRuntime} (w : world) (vehicle_no text : ustring) (status : Z)
  (parsed : ustring + pyval) :
  provider w (PDict [(U "vehicle_number", PStr vehicle_no)])
  = Replied status (Text text parsed) ->
  status <> 200%Z ->
  exists raw,
    snd (fetch_from_api w vehicle_no) = Ok raw
    /\ extract_vehicle_data raw
       = Ok (PNone, PStr (U "HTTP " ++ py_str (PInt status))).
Proof.
  intros Hprov Hstatus. rewrite fetch_from_api_cases, Hprov.
  apply Z.eqb_neq in Hstatus. rewrite Hstatus.
  eexists. split; reflexivity.
Qed.

Lemma fetch_from_api_http_error_witness :
  provider (sample_world [U "PB65AM0008"]
              (Replied 429 (Text (U "Too many requests")
                                 (inr (PDict success_envelope)))))
    (PDict [(U "vehicle_number", PStr (U "PB65AM0008"))])
  = Replied 429 (Text (U "Too many requests") (inr (PDict success_envelope)))
  /\ 429%Z <> 200%Z
  /\ exists raw,
       snd (fetch_from_api (rt := runtime_excerpt)
              (sample_world [U "PB65AM0008"]
                 (Replied 429 (Text (U "Too many requests")
                                    (inr (PDict success_envelope)))))
              (U "PB65AM0008")) = Ok raw
       /\ extract_vehicle_data raw
          = Ok (PNone,
                PStr (U "HTTP " ++ py_str (rt := runtime_excerpt) (PInt 429))).
Proof.
  split; [reflexivity|]. split; [discriminate|].
  apply (fetch_from_api_http_error (rt := runtime_excerpt)
           (sample_world [U "PB65AM0008"]
              (Replied 429 (Text (U "Too many requests")
                                 (inr (PDict success_envelope)))))
           (U "PB65AM0008") (U "Too many requests") 429
           (inr (PDict success_envelope)));
    [reflexivity | discriminate].
Defined.

(** X12.  When the request fails, when the body cannot be decoded, or
    when a 200 body is not JSON, the exception message becomes the
    failure reason of the normaliser. *)
Theorem fetch_from_api_exception_reason
  {rt : PyRuntime} (w : world) (vehicle_no msg : ustring) :
  (provider w (PDict [(U "vehicle_number", PStr vehicle_no)]) = Failed msg
   \/ (exists status,
         provider w (PDict [(U "vehicle_number", PStr vehicle_no)])
         = Replied status (Undecodable msg))
   \/ (exists text,
         provider w (PDict [(U "vehicle_number", PStr vehicle_no)])
         = Replied 200 (Text text (inl msg)))) ->
  exists raw,
    snd (fetch_from_api w vehicle_no) = Ok raw
    /\ extract_vehicle_data raw = Ok (PNone, PStr msg).
Proof.
  intros H. rewrite fetch_from_api_cases.
  destruct H as [-> | [[status ->] | [text ->]]];
    eexists; split; reflexivity.
Qed.

Lemma fetch_from_api_exception_reason_witness :
  (provider (sample_world [U "MH02FB2727"] (Failed (U "timed out")))
     (PDict [(U "vehicle_number", PStr (U "MH02FB2727"))])
   = Failed (U "timed out")
   \/ (exists status,
         provider (sample_world [U "MH02FB2727"] (Failed (U "timed out")))
           (PDict [(U "vehicle_number", PStr (U "MH02FB2727"))])
         = Replied status (Undecodable (U "timed out")))
   \/ (exists text,
         provider (sample_world [U "MH02FB2727"] (Failed (U "timed out")))
           (PDict [(U "vehicle_number", PStr (U "MH02FB2727"))])
         = Replied 200 (Text text (inl (U "timed out")))))
  /\ exists raw,
       snd (fetch_from_api (rt := runtime_excerpt)
              (sample_world [U "MH02FB2727"] (Failed (U "timed out")))
              (U "MH02FB2727")) = Ok raw
       /\ extract_vehicle_data raw = Ok (PNone, PStr (U "timed out")).
Proof.
  assert (H : provider (sample_world [U "MH02FB2727"] (Failed (U "timed out")))
                (PDict [(U "vehicle_number", PStr (U "MH02FB2727"))])
              = Failed (U "timed out")) by reflexivity.
  split; [left; exact H|].
  apply (fetch_from_api_exception_reason (rt := runtime_excerpt)
           (sample_world [U "MH02FB2727"] (Failed (U "timed out")))
           (U "MH02FB2727") (U "timed out")).
  left. exact H.
Defined.

(** ** Save to file *)

(** X13.  When nothing fails, the writer creates the directory only if
    it is absent and writes the content as it is to
    [reports/vehicle_<identifier>_<timestamp>.txt]. *)
Theorem save_to_file_writes_report
  (w : world) (vehicle_no content : ustring) :
  reports_dir_exists w = true \/ makedirs_error w REPORTS_DIR = None ->
  write_error w
    (U "reports/vehicle_" ++ vehicle_no ++ U "_" ++ now_stamp w ++ U ".txt")
    content = None ->
  save_to_file w vehicle_no content
  = ((if reports_dir_exists w then []
      else [MakeDirs (U "reports"); Print (U "📁 Created directory: reports/")])
     ++ [WriteFile
           (U "reports/vehicle_" ++ vehicle_no ++ U "_" ++ now_stamp w
            ++ U ".txt") content;
         Print (U "💾 Output saved to: reports/vehicle_" ++ vehicle_no
                ++ U "_" ++ now_stamp w ++ U ".txt")],
     Ok tt).
Proof.
  intros Hdir Hwrite. unfold save_to_file.
  change (os_path_join REPORTS_DIR
            (U "vehicle_" ++ vehicle_no ++ U "_" ++ now_stamp w ++ U ".txt"))
    with (U "reports/vehicle_" ++ vehicle_no ++ U "_" ++ now_stamp w
          ++ U ".txt").
  rewrite Hwrite.
  destruct (reports_dir_exists w); cbn [negb].
  - reflexivity.
  - destruct Hdir as [Hdir | Hdir]; [discriminate Hdir|].
    rewrite Hdir. reflexivity.
Qed.

Lemma save_to_file_writes_report_witness :
  (reports_dir_exists scenario_A = true
   \/ makedirs_error scenario_A REPORTS_DIR = None)
  /\ write_error scenario_A
       (U "reports/vehicle_" ++ U "PB65AM0008" ++ U "_" ++ now_stamp scenario_A
        ++ U ".txt") (U "report") = None
  /\ save_to_file scenario_A (U "PB65AM0008") (U "report")
     = ((if reports_dir_exists scenario_A then []
         else [MakeDirs (U "reports");
               Print (U "📁 Created directory: reports/")])
        ++ [WriteFile
              (U "reports/vehicle_" ++ U "PB65AM0008" ++ U "_"
               ++ now_stamp scenario_A ++ U ".txt") (U "report");
            Print (U "💾 Output saved to: reports/vehicle_" ++ U "PB65AM0008"
                   ++ U "_" ++ now_stamp scenario_A ++ U ".txt")],
        Ok tt).
Proof.
  split; [left; reflexivity|]. split; [reflexivity|].
  apply (save_to_file_writes_report scenario_A (U "PB65AM0008") (U "report"));
    [left; reflexivity | reflexivity].
Defined.

(** X14.  Once the directory is there, the writer does not raise: a
    failing write is reported on the console and the writer returns. *)
Theorem save_to_file_reports_write_error
  (w : world) (vehicle_no content msg : ustring) :
  reports_dir_exists w = true \/ makedirs_error w REPORTS_DIR = None ->
  write_error w
    (U "reports/vehicle_" ++ vehicle_no ++ U "_" ++ now_stamp w ++ U ".txt")
    content = Some msg ->
  save_to_file w vehicle_no content
  = ((if reports_dir_exists w then []
      else [MakeDirs (U "reports"); Print (U "📁 Created directory: reports/")])
     ++ [WriteFile
           (U "reports/vehicle_" ++ vehicle_no ++ U "_" ++ now_stamp w
            ++ U ".txt") content;
         Print (U "❌ Failed to save file: " ++ msg)],
     Ok tt).
Proof.
  intros Hdir Hwrite. unfold save_to_file.
  change (os_path_join REPORTS_DIR
            (U "vehicle_" ++ vehicle_no ++ U "_" ++ now_stamp w ++ U ".txt"))
    with (U "reports/vehicle_" ++ vehicle_no ++ U "_" ++ now_stamp w
          ++ U ".txt").
  rewrite Hwrite.
  destruct (reports_dir_exists w); cbn [negb].
  - reflexivity.
  - destruct Hdir as [Hdir | Hdir]; [discriminate Hdir|].
    rewrite Hdir. reflexivity.
Qed.

Lemma save_to_file_reports_write_error_witness :
  (reports_dir_exists disk_full_world = true
   \/ makedirs_error disk_full_world REPORTS_DIR = None)
  /\ write_error disk_full_world
       (U "reports/vehicle_" ++ U "PB65AM0008" ++ U "_"
        ++ now_stamp disk_full_world ++ U ".txt") (U "report")
     = Some (U "[Errno 28] No space left on device")
  /\ save_to_file disk_full_world (U "PB65AM0008") (U "report")
     = ((if reports_dir_exists disk_full_world then []
         else [MakeDirs (U "reports");
               Print (U "📁 Created directory: reports/")])
        ++ [WriteFile
              (U "reports/vehicle_" ++ U "PB65AM0008" ++ U "_"
               ++ now_stamp disk_full_world ++ U ".txt") (U "report");
            Print (U "❌ Failed to save file: "
                   ++ U "[Errno 28] No space left on device")],
        Ok tt).
Proof.
  split; [right; reflexivity|]. split; [reflexivity|].
  apply (save_to_file_reports_write_error disk_full_world (U "PB65AM0008")
           (U "report") (U "[Errno 28] No space left on device"));
    [right; reflexivity | reflexivity].
Defined.

(** ** Main flow: the paths of a run *)

Section MainPaths.
Context {rt : PyRuntime}.


Lemma is_save_flag_in (flag : ustring) (args : list ustring) :
  is_save_flag flag = true ->
  In flag args ->
  str_in (U "-s") args || str_in (U "--save") args = true.
Proof.
  intros Hflag Hin. unfold is_save_flag in Hflag.
  apply orb_true_iff in Hflag as [E | E]; apply ueqb_eq in E; subst flag;
    apply orb_true_iff; [left | right]; now apply str_in_In.
Qed.

(** [main] reads its arguments through the two things it computes from
    them: whether a save flag is present, and the arguments that are
    not flags. *)
Lemma main_set_argv (w : world) (args args' : list ustring) :
  str_in (U "-s") args || str_in (U "--save") args
  = str_in (U "-s") args' || str_in (U "--save") args' ->
  filter (fun arg => negb (is_save_flag arg)) args
  = filter (fun arg => negb (is_save_flag arg)) args' ->
  main (set_argv w args) = main (set_argv w args').
Proof.
  intros Hflag Hpos. unfold main. cbn [argv set_argv rapidapi_key].
  rewrite !positional_arguments, Hflag, Hpos. reflexivity.
Qed.

End MainPaths.

(** X15.  Without a credential, [None] or empty, the run prints the
    banner and the two lines of the configuration error and exits with
    status 1; the arguments are not read and the provider is not
    called. *)
Theorem main_without_credential {rt : PyRuntime} (w : world) :
  py_truthy (opt_str (rapidapi_key w)) = false ->
  main w
  = (fst show_banner ++
     [Print (ESC ++ U "[1;31m❌ ERROR: RAPIDAPI_KEY not found in .env file."
             ++ ESC ++ U "[0m");
      Print (U "Please create a .env file with your key (see .env.example).")],
     Raise (SystemExit 1)).
Proof.
  intros H. unfold main. rewrite H. reflexivity.
Qed.

Lemma main_without_credential_witness :
  py_truthy (opt_str (rapidapi_key
     {| rapidapi_key := Some [];
        argv := [U "PB65AM0008"];
        stdin_line := None;
        provider := fun _ => scenario_A_reply;
        reports_dir_exists := true;
        makedirs_error := fun _ => None;
        write_error := fun _ _ => None;
        now_header := [];
        now_stamp := [] |})) = false
  /\ main (rt := runtime_excerpt)
       {| rapidapi_key := Some [];
          argv := [U "PB65AM0008"];
          stdin_line := None;
          provider := fun _ => scenario_A_reply;
          reports_dir_exists := true;
          makedirs_error := fun _ => None;
          write_error := fun _ _ => None;
          now_header := [];
          now_stamp := [] |}
     = (fst show_banner ++
        [Print (ESC ++ U "[1;31m❌ ERROR: RAPIDAPI_KEY not found in .env file."
                ++ ESC ++ U "[0m");
         Print (U "Please create a .env file with your key (see .env.example).")],
        Raise (SystemExit 1)).
Proof.
  split; [vm_compute; reflexivity|].
  apply (main_without_credential (rt := runtime_excerpt)).
  vm_compute. reflexivity.
Defined.

(** X16.  An identifier that fails validation, whether it came as an
    argument or from the prompt, ends the run with [sys.exit(1)]; up to
    there the run has only printed and prompted: no request was sent,
    no directory created and no file written. *)
Theorem main_rejects_invalid_identifier
  {rt : PyRuntime} (w : world) (vehicle_no : ustring) :
  identifier w = Some vehicle_no ->
  validate_vehicle_number vehicle_no = false ->
  snd (main w) = Raise (SystemExit 1)
  /\ forallb is_console (fst (main w)) = true
  /\ (py_truthy (opt_str (rapidapi_key w)) = true ->
      In (Print (ESC ++ U "[1;31m❌ Invalid format. Use e.g., MH02FB2727"
                 ++ ESC ++ U "[0m")) (fst (main w))).
Proof.
  intros Hid Hinvalid. unfold main.
  destruct (py_truthy (opt_str (rapidapi_key w))).
  2:{ unfold show_banner. py_run.
      split; [reflexivity|]. split; [reflexivity|]. discriminate. }
  rewrite positional_arguments. unfold identifier in Hid.
  destruct (filter _ (argv w)) as [|arg rest].
  - destruct (stdin_line w) as [line|] eqn:Hline; [|discriminate Hid].
    injection Hid as <-.
    unfold show_banner, input. rewrite Hline. py_run.
    rewrite Hinvalid. py_run.
    split; [reflexivity|]. split; [reflexivity|]. intros _. find_event.
  - injection Hid as <-.
    unfold show_banner. py_run. rewrite Hinvalid. py_run.
    split; [reflexivity|]. split; [reflexivity|]. intros _. find_event.
Qed.

Lemma main_rejects_invalid_identifier_witness :
  identifier (sample_world [U "--save"; U " invalid123 "] scenario_A_reply)
  = Some (U "invalid123")
  /\ validate_vehicle_number (rt := runtime_excerpt) (U "invalid123") = false
  /\ snd (main (rt := runtime_excerpt)
            (sample_world [U "--save"; U " invalid123 "] scenario_A_reply))
     = Raise (SystemExit 1)
  /\ forallb is_console
       (fst (main (rt := runtime_excerpt)
               (sample_world [U "--save"; U " invalid123 "] scenario_A_reply)))
     = true
  /\ (py_truthy (opt_str (rapidapi_key
        (sample_world [U "--save"; U " invalid123 "] scenario_A_reply))) = true ->
      In (Print (ESC ++ U "[1;31m❌ Invalid format. Use e.g., MH02FB2727"
                 ++ ESC ++ U "[0m"))
         (fst (main (rt := runtime_excerpt)
                 (sample_world [U "--save"; U " invalid123 "]
                    scenario_A_reply)))).
Proof.
  split; [vm_compute; reflexivity|]. split; [vm_compute; reflexivity|].
  apply (main_rejects_invalid_identifier (rt := runtime_excerpt)
           (sample_world [U "--save"; U " invalid123 "] scenario_A_reply)
           (U "invalid123")); vm_compute; reflexivity.
Defined.

(** X17.  With no argument left once the flags are removed, and the
    console at end of input, the prompt is shown and [input()] raises
    [EOFError], which nothing catches: the run ends with status 1 before
    any request. *)
Theorem main_end_of_input {rt : PyRuntime} (w : world) :
  py_truthy (opt_str (rapidapi_key w)) = true ->
  filter (fun arg => negb (is_save_flag arg)) (argv w) = [] ->
  stdin_line w = None ->
  main w
  = (fst show_banner
     ++ [Input (U "Enter vehicle number (e.g., PB65AM0008): ")],
     Raise (Exception (U "EOFError") (U "EOF when reading a line")))
  /\ exit_status (snd (main w)) = 1%Z.
Proof.
  intros Hkey Hargs Hline.
  assert (E : main w
              = (fst show_banner
                 ++ [Input (U "Enter vehicle number (e.g., PB65AM0008): ")],
                 Raise (Exception (U "EOFError")
                          (U "EOF when reading a line")))).
  { unfold main. rewrite Hkey, positional_arguments, Hargs.
    unfold input. rewrite Hline. reflexivity. }
  rewrite E. split; reflexivity.
Qed.

Lemma main_end_of_input_witness :
  py_truthy (opt_str (rapidapi_key (sample_world [U "-s"] scenario_A_reply)))
  = true
  /\ filter (fun arg => negb (is_save_flag arg))
       (argv (sample_world [U "-s"] scenario_A_reply)) = []
  /\ stdin_line (sample_world [U "-s"] scenario_A_reply) = None
  /\ main (rt := runtime_excerpt) (sample_world [U "-s"] scenario_A_reply)
     = (fst show_banner
        ++ [Input (U "Enter vehicle number (e.g., PB65AM0008): ")],
        Raise (Exception (U "EOFError") (U "EOF when reading a line")))
  /\ exit_status
       (snd (main (rt := runtime_excerpt)
               (sample_world [U "-s"] scenario_A_reply))) = 1%Z.
Proof.
  do 3 (split; [vm_compute; reflexivity|]).
  apply (main_end_of_input (rt := runtime_excerpt)
           (sample_world [U "-s"] scenario_A_reply));
    vm_compute; reflexivity.
Defined.

(** X18.  The save flag may stand before or after the identifier, and
    its two spellings are one: the runs are the same, event by event. *)
Theorem main_save_flag_position
  {rt : PyRuntime} (w : world) (arg flag flag' : ustring) :
  is_save_flag flag = true ->
  is_save_flag flag' = true ->
  main (set_argv w [arg; flag]) = main (set_argv w [flag'; arg]).
Proof.
  intros Hflag Hflag'. apply main_set_argv.
  - rewrite (is_save_flag_in flag [arg; flag] Hflag) by (right; now left).
    rewrite (is_save_flag_in flag' [flag'; arg] Hflag') by now left.
    reflexivity.
  - cbn [filter]. rewrite Hflag, Hflag'. reflexivity.
Qed.

Lemma main_save_flag_position_witness :
  is_save_flag (U "--save") = true
  /\ is_save_flag (U "-s") = true
  /\ main (rt := runtime_excerpt)
       (set_argv scenario_A [U "pb65am0008"; U "--save"])
     = main (rt := runtime_excerpt)
         (set_argv scenario_A [U "-s"; U "pb65am0008"]).
Proof.
  do 2 (split; [vm_compute; reflexivity|]).
  apply (main_save_flag_position (rt := runtime_excerpt) scenario_A
           (U "pb65am0008") (U "--save") (U "-s"));
    vm_compute; reflexivity.
Defined.

(** X19.  The fallback, in general.  For a valid identifier given as
    the only argument, whenever the record the normaliser returns is
    false ([None], an empty dictionary, an empty string, zero, ...),
    the run prints the API-issue line with the failure reason, dumps
    the raw response if and only if the reason is "Unknown response
    format", announces the fallback, presents the placeholder record
    under "Demo" and ends normally. *)
Theorem main_falls_back
  {rt : PyRuntime} (w : world) (arg : ustring) (raw record reason : pyval) :
  py_truthy (opt_str (rapidapi_key w)) = true ->
  argv w = [arg] ->
  validate_vehicle_number (py_strip arg) = true ->
  snd (fetch_from_api w (py_strip arg)) = Ok raw ->
  extract_vehicle_data raw = Ok (record, reason) ->
  py_truthy record = false ->
  exists demo_text,
    format_vehicle_text (demo_data (py_strip arg)) (U "Demo") = Ok demo_text
    /\ main w =
       (fst show_banner ++
        [Print ([10] ++ U "🔎 Fetching details for " ++ ESC ++ U "[1;33m"
                ++ py_upper (py_strip arg) ++ ESC ++ U "[0m...");
         Print (U "🌐 Using live API...");
         HttpsPost RAPIDAPI_HOST API_ENDPOINT
           (PDict [(U "vehicle_number", PStr (py_strip arg))])
           (request_headers w);
         Print (ESC ++ U "[1;33m⚠️  API issue: " ++ py_str reason
                ++ ESC ++ U "[0m")]
        ++ (if py_eq_str reason (U "Unknown response format")
            then [Print ([10] ++ U "📦 Raw response received:");
                  Print (json_dumps_indent raw)]
            else [])
        ++ [Print ([10] ++ U "🔄 Falling back to demo data...");
            Print ([10] ++ demo_text)],
        Ok tt).
Proof.
  intros Hkey Hargv Hvalid Hfetch Hextract Hfalse.
  destruct (fetch_from_api_returns w (py_strip arg)) as [raw' Hf].
  rewrite Hf in Hfetch. injection Hfetch as ->.
  eexists. split; [reflexivity|].
  unfold main. rewrite Hkey, Hargv.
  rewrite (single_argument_no_flag arg Hvalid).
  unfold show_banner. py_run. rewrite Hvalid. py_run.
  rewrite Hf. py_run. rewrite Hextract. py_run. rewrite Hfalse. py_run.
  destruct (py_eq_str reason (U "Unknown response format")); reflexivity.
Qed.

Lemma main_falls_back_witness :
  py_truthy (opt_str (rapidapi_key
     (sample_world [U "MH02FB2727"] (Failed (U "timed out"))))) = true
  /\ argv (sample_world [U "MH02FB2727"] (Failed (U "timed out")))
     = [U "MH02FB2727"]
  /\ validate_vehicle_number (rt := runtime_excerpt)
       (py_strip (U "MH02FB2727")) = true
  /\ snd (fetch_from_api (rt := runtime_excerpt)
            (sample_world [U "MH02FB2727"] (Failed (U "timed out")))
            (py_strip (U "MH02FB2727")))
     = Ok (error_descriptor (U "timed out"))
  /\ extract_vehicle_data (error_descriptor (U "timed out"))
     = Ok (PNone, PStr (U "timed out"))
  /\ py_truthy PNone = false
  /\ exists demo_text,
       format_vehicle_text (rt := runtime_excerpt)
         (demo_data (rt := runtime_excerpt) (py_strip (U "MH02FB2727")))
         (U "Demo") = Ok demo_text
       /\ main (rt := runtime_excerpt)
            (sample_world [U "MH02FB2727"] (Failed (U "timed out"))) =
          (fst show_banner ++
           [Print ([10] ++ U "🔎 Fetching details for " ++ ESC ++ U "[1;33m"
                   ++ py_upper (rt := runtime_excerpt)
                        (py_strip (U "MH02FB2727"))
                   ++ ESC ++ U "[0m...");
            Print (U "🌐 Using live API...");
            HttpsPost RAPIDAPI_HOST API_ENDPOINT
              (PDict [(U "vehicle_number", PStr (py_strip (U "MH02FB2727")))])
              (request_headers
                 (sample_world [U "MH02FB2727"] (Failed (U "timed out"))));
            Print (ESC ++ U "[1;33m⚠️  API issue: "
                   ++ py_str (rt := runtime_excerpt) (PStr (U "timed out"))
                   ++ ESC ++ U "[0m")]
           ++ (if py_eq_str (PStr (U "timed out"))
                    (U "Unknown response format")
               then [Print ([10] ++ U "📦 Raw response received:");
                     Print (json_dumps_indent (PyRuntime := runtime_excerpt)
                              (error_descriptor (U "timed out")))]
               else [])
           ++ [Print ([10] ++ U "🔄 Falling back to demo data...");
               Print ([10] ++ demo_text)],
           Ok tt).
Proof.
  do 6 (split; [vm_compute; reflexivity|]).
  apply (main_falls_back (rt := runtime_excerpt)
           (sample_world [U "MH02FB2727"] (Failed (U "timed out")))
           (U "MH02FB2727") (error_descriptor (U "timed out"))
           PNone (PStr (U "timed out"))); vm_compute; reflexivity.
Defined.

(** X20.  The live path, in general.  For a valid identifier given as
    the only argument, whenever the normaliser returns a dictionary
    that is not empty, the run presents that dictionary under
    "Live API" and prints nothing after it: no issue line, no
    fallback. *)
Theorem main_presents_live_record
  {rt : PyRuntime} (w : world) (arg : ustring) (raw reason : pyval)
  (field : ustring * pyval) (fields : pydict) :
  py_truthy (opt_str (rapidapi_key w)) = true ->
  argv w = [arg] ->
  validate_vehicle_number (py_strip arg) = true ->
  snd (fetch_from_api w (py_strip arg)) = Ok raw ->
  extract_vehicle_data raw = Ok (PDict (field :: fields), reason) ->
  main w =
  (fst show_banner ++
   [Print ([10] ++ U "🔎 Fetching details for " ++ ESC ++ U "[1;33m"
           ++ py_upper (py_strip arg) ++ ESC ++ U "[0m...");
    Print (U "🌐 Using live API...");
    HttpsPost RAPIDAPI_HOST API_ENDPOINT
      (PDict [(U "vehicle_number", PStr (py_strip arg))]) (request_headers w);
    Print ([10] ++ join [10]
             (format_vehicle_lines (field :: fields) (U "Live API")))],
   Ok tt).
Proof.
  intros Hkey Hargv Hvalid Hfetch Hextract.
  destruct (fetch_from_api_returns w (py_strip arg)) as [raw' Hf].
  rewrite Hf in Hfetch. injection Hfetch as ->.
  unfold main. rewrite Hkey, Hargv.
  rewrite (single_argument_no_flag arg Hvalid).
  unfold show_banner. py_run. rewrite Hvalid. py_run.
  rewrite Hf. py_run. rewrite Hextract. reflexivity.
Qed.

Lemma main_presents_live_record_witness :
  py_truthy (opt_str (rapidapi_key scenario_A)) = true
  /\ argv scenario_A = [U "pb65am0008"]
  /\ validate_vehicle_number (rt := runtime_excerpt)
       (py_strip (U "pb65am0008")) = true
  /\ snd (fetch_from_api (rt := runtime_excerpt) scenario_A
            (py_strip (U "pb65am0008"))) = Ok (PDict success_envelope)
  /\ extract_vehicle_data (PDict success_envelope)
     = Ok (PDict [(U "owner_name", PStr (U "JOHN DOE"));
                  (U "license_plate", PStr (U "PB65AM0008"))], PNone)
  /\ main (rt := runtime_excerpt) scenario_A =
     (fst show_banner ++
      [Print ([10] ++ U "🔎 Fetching details for " ++ ESC ++ U "[1;33m"
              ++ py_upper (rt := runtime_excerpt) (py_strip (U "pb65am0008"))
              ++ ESC ++ U "[0m...");
       Print (U "🌐 Using live API...");
       HttpsPost RAPIDAPI_HOST API_ENDPOINT
         (PDict [(U "vehicle_number", PStr (py_strip (U "pb65am0008")))])
         (request_headers scenario_A);
       Print ([10] ++ join [10]
                (format_vehicle_lines (rt := runtime_excerpt)
                   [(U "owner_name", PStr (U "JOHN DOE"));
                    (U "license_plate", PStr (U "PB65AM0008"))]
                   (U "Live API")))],
      Ok tt).
Proof.
  do 5 (split; [vm_compute; reflexivity|]).
  apply (main_presents_live_record (rt := runtime_excerpt) scenario_A
           (U "pb65am0008") (PDict success_envelope) PNone
           (U "owner_name", PStr (U "JOHN DOE"))
           [(U "license_plate", PStr (U "PB65AM0008"))]);
    vm_compute; reflexivity.
Defined.

(** X21.  What a run ends with, for a valid identifier given as the
    only argument: status 0 when the normalised record is false or a
    dictionary, status 1 (uncaught [AttributeError]) when it is true
    and anything else. *)
Theorem main_exit_status {rt : PyRuntime} (w : world) (arg : ustring) :
  py_truthy (opt_str (rapidapi_key w)) = true ->
  argv w = [arg] ->
  validate_vehicle_number (py_strip arg) = true ->
  exists raw record reason,
    snd (fetch_from_api w (py_strip arg)) = Ok raw
    /\ extract_vehicle_data raw = Ok (record, reason)
    /\ exit_status (snd (main w))
       = (if py_truthy record
          then match record with PDict _ => 0 | _ => 1 end
          else 0)%Z.
Proof. exact (main_single_argument_status w arg). Qed.

Lemma main_exit_status_witness :
  py_truthy (opt_str (rapidapi_key message_world)) = true
  /\ argv message_world = [U "PB65AM0008"]
  /\ validate_vehicle_number (rt := runtime_excerpt)
       (py_strip (U "PB65AM0008")) = true
  /\ exists raw record reason,
       snd (fetch_from_api (rt := runtime_excerpt) message_world
              (py_strip (U "PB65AM0008"))) = Ok raw
       /\ extract_vehicle_data raw = Ok (record, reason)
       /\ exit_status (snd (main (rt := runtime_excerpt) message_world))
          = (if py_truthy record
             then match record with PDict _ => 0 | _ => 1 end
             else 0)%Z.
Proof.
  do 3 (split; [vm_compute; reflexivity|]).
  apply (main_exit_status (rt := runtime_excerpt) message_world
           (U "PB65AM0008")); vm_compute; reflexivity.
Defined.




(** ** Environment file *)

Lemma load_env_lines_app (before after : list ustring) (env : environ) :
  load_env_lines (before ++ after) env
  = match load_env_lines before env with
    | inr env' => load_env_lines after env'
    | inl e => inl e
    end.
Proof.
  revert env. induction before as [|raw rest IH]; intros env;
    [reflexivity|].
  cbn [app load_env_lines].
  destruct (py_truthy (PStr (py_strip raw))
            && negb (starts_with (U "#") (py_strip raw))); [|apply IH].
  destruct (split_once 61 (py_strip raw)) as [[key value]|]; [|reflexivity].
  destruct (environ_set env _ _) as [e | env']; [reflexivity | apply IH].
Qed.

Lemma split_once_none (sep : N) (s : ustring) :
  ~ In sep s -> split_once sep s = None.
Proof.
  induction s as [|c s IH]; [reflexivity|].
  intros H. cbn [split_once].
  destruct (N.eqb_spec c sep) as [-> | _].
  - exfalso. apply H. now left.
  - rewrite IH; [reflexivity|]. intros Hin. apply H. now right.
Qed.

Lemma split_once_first (sep : N) (before after : ustring) :
  ~ In sep before ->
  split_once sep (before ++ sep :: after) = Some (before, after).
Proof.
  induction before as [|c before IH]; intros H; cbn [app split_once].
  - now rewrite N.eqb_refl.
  - destruct (N.eqb_spec c sep) as [-> | _].
    + exfalso. apply H. now left.
    + rewrite IH; [reflexivity|]. intros Hin. apply H. now right.
Qed.

Lemma no_null (s : ustring) : ~ In 0 s -> existsb (N.eqb 0) s = false.
Proof.
  intros H. destruct (existsb (N.eqb 0) s) eqn:E; [|reflexivity].
  apply existsb_exists in E as [c [Hin Hc]]. apply N.eqb_eq in Hc.
  subst c. contradiction.
Qed.

(** X23.  Blank lines and lines whose first character after the leading
    space is [#] are ignored wherever they stand: the file loads as it
    does without them. *)
Theorem load_env_ignores_blank_and_comment
  (before after : list ustring) (line : ustring) (env : environ) :
  py_strip line = [] \/ starts_with (U "#") (py_strip line) = true ->
  load_env (Lines (before ++ line :: after)) env
  = load_env (Lines (before ++ after)) env.
Proof.
  intros H. cbn [load_env]. rewrite !load_env_lines_app.
  destruct (load_env_lines before env) as [e | env']; [reflexivity|].
  cbn [load_env_lines].
  destruct H as [-> | ->]; [reflexivity|].
  now rewrite andb_false_r.
Qed.

Lemma load_env_ignores_blank_and_comment_witness :
  (py_strip (U "  # the provider key") = []
   \/ starts_with (U "#") (py_strip (U "  # the provider key")) = true)
  /\ load_env (Lines ([U "HOST=example.org"]
                      ++ U "  # the provider key" :: [U "RAPIDAPI_KEY=abc"]))
       []
     = load_env (Lines ([U "HOST=example.org"] ++ [U "RAPIDAPI_KEY=abc"])) [].
Proof.
  split; [right; reflexivity|].
  apply (load_env_ignores_blank_and_comment [U "HOST=example.org"]
           [U "RAPIDAPI_KEY=abc"] (U "  # the provider key") []).
  right. reflexivity.
Defined.

(** X24.  A line that is neither blank nor a comment and holds no [=]
    stops the loader with [ValueError], whatever follows it, once the
    lines before it have loaded: the program then ends before [main] is
    reached and no credential is read. *)
Theorem load_env_line_without_equals
  (before after : list ustring) (line : ustring) (env env1 : environ) :
  load_env_lines before env = Ok env1 ->
  py_strip line <> [] ->
  starts_with (U "#") (py_strip line) = false ->
  ~ In 61 (py_strip line) ->
  load_env (Lines (before ++ line :: after)) env
  = Raise (Exception (U "ValueError")
             (U "not enough values to unpack (expected 2, got 1)"))
  /\ load_RAPIDAPI_KEY (Lines (before ++ line :: after)) env
     = Raise (Exception (U "ValueError")
                (U "not enough values to unpack (expected 2, got 1)")).
Proof.
  intros Hbefore Hblank Hcomment Hequals.
  assert (E : load_env (Lines (before ++ line :: after)) env
              = Raise (Exception (U "ValueError")
                         (U "not enough values to unpack (expected 2, got 1)"))).
  { cbn [load_env]. rewrite load_env_lines_app, Hbefore.
    cbn [load_env_lines]. rewrite Hcomment, (split_once_none 61 _ Hequals).
    destruct (py_strip line); [contradiction | reflexivity]. }
  split; [exact E|]. unfold load_RAPIDAPI_KEY. now rewrite E.
Qed.

Lemma load_env_line_without_equals_witness :
  load_env_lines [U "HOST=example.org"] [] = Ok [(U "HOST", U "example.org")]
  /\ py_strip (U "RAPIDAPI_KEY abc") <> []
  /\ starts_with (U "#") (py_strip (U "RAPIDAPI_KEY abc")) = false
  /\ ~ In 61 (py_strip (U "RAPIDAPI_KEY abc"))
  /\ load_env (Lines ([U "HOST=example.org"]
                      ++ U "RAPIDAPI_KEY abc" :: [U "DEBUG=1"])) []
     = Raise (Exception (U "ValueError")
                (U "not enough values to unpack (expected 2, got 1)"))
  /\ load_RAPIDAPI_KEY (Lines ([U "HOST=example.org"]
                               ++ U "RAPIDAPI_KEY abc" :: [U "DEBUG=1"])) []
     = Raise (Exception (U "ValueError")
                (U "not enough values to unpack (expected 2, got 1)")).
Proof.
  assert (H1 : py_strip (U "RAPIDAPI_KEY abc") <> []) by discriminate.
  assert (H2 : ~ In 61 (py_strip (U "RAPIDAPI_KEY abc"))).
  { vm_compute. intros H.
    repeat (destruct H as [H | H]; [discriminate H|]). exact H. }
  split; [reflexivity|]. split; [exact H1|]. split; [reflexivity|].
  split; [exact H2|].
  apply (load_env_line_without_equals [U "HOST=example.org"] [U "DEBUG=1"]
           (U "RAPIDAPI_KEY abc") [] [(U "HOST", U "example.org")]
           eq_refl H1 eq_refl H2).
Defined.

(** X25.  An assignment line sets its name: the name is the text before
    the first [=], stripped; the value is the text after it, stripped
    of space and then of surrounding quotes.  It replaces any value the
    name had, from an earlier line or from the environment of the
    process, and leaves the other names alone; the credential is read
    after the file, so a [RAPIDAPI_KEY] line in the file wins. *)
Theorem load_env_assignment
  (before : list ustring) (line key value : ustring) (env env1 : environ) :
  load_env_lines before env = Ok env1 ->
  py_strip line = key ++ 61 :: value ->
  ~ In 61 key ->
  starts_with (U "#") (py_strip line) = false ->
  py_strip key <> [] ->
  ~ In 0 (py_strip key) ->
  ~ In 0 (strip_chars quotes (py_strip value)) ->
  exists env2,
    load_env (Lines (before ++ [line])) env = Ok env2
    /\ environ_get env2 (py_strip key)
       = Some (strip_chars quotes (py_strip value))
    /\ (forall other, other <> py_strip key ->
          environ_get env2 other = environ_get env1 other)
    /\ load_RAPIDAPI_KEY (Lines (before ++ [line])) env
       = Ok (if ueqb (py_strip key) (U "RAPIDAPI_KEY")
             then Some (strip_chars quotes (py_strip value))
             else environ_get env1 (U "RAPIDAPI_KEY")).
Proof.
  intros Hbefore Hline Hkey Hcomment Hname Hnull Hnull'.
  exists ((py_strip key, strip_chars quotes (py_strip value)) :: env1).
  assert (E : load_env (Lines (before ++ [line])) env
              = Ok ((py_strip key, strip_chars quotes (py_strip value))
                    :: env1)).
  { cbn [load_env]. rewrite load_env_lines_app, Hbefore.
    cbn [load_env_lines]. rewrite Hcomment, Hline.
    rewrite (split_once_first 61 key value Hkey).
    unfold environ_set. rewrite (no_null _ Hnull), (no_null _ Hnull').
    cbn [orb py_truthy app andb negb].
    destruct key as [|c key]; cbn [app];
      (destruct (py_strip _) eqn:Ek in |- *; [|reflexivity]);
      try reflexivity; try contradiction. }
  split; [exact E|]. split.
  { cbn [environ_get]. now rewrite ueqb_refl. }
  split.
  { intros other Hother. cbn [environ_get].
    destruct (ueqb (py_strip key) other) eqn:Eo; [|reflexivity].
    apply ueqb_eq in Eo. congruence. }
  unfold load_RAPIDAPI_KEY. rewrite E. reflexivity.
Qed.

Lemma load_env_assignment_witness :
  load_env_lines [U "RAPIDAPI_KEY=first"] [(U "RAPIDAPI_KEY", U "exported")]
  = Ok [(U "RAPIDAPI_KEY", U "first"); (U "RAPIDAPI_KEY", U "exported")]
  /\ py_strip (U " RAPIDAPI_KEY = 'abc=123' ")
     = U "RAPIDAPI_KEY " ++ 61 :: U " 'abc=123'"
  /\ ~ In 61 (U "RAPIDAPI_KEY ")
  /\ starts_with (U "#") (py_strip (U " RAPIDAPI_KEY = 'abc=123' ")) = false
  /\ py_strip (U "RAPIDAPI_KEY ") <> []
  /\ ~ In 0 (py_strip (U "RAPIDAPI_KEY "))
  /\ ~ In 0 (strip_chars quotes (py_strip (U " 'abc=123'")))
  /\ exists env2,
       load_env (Lines ([U "RAPIDAPI_KEY=first"]
                        ++ [U " RAPIDAPI_KEY = 'abc=123' "]))
         [(U "RAPIDAPI_KEY", U "exported")] = Ok env2
       /\ environ_get env2 (py_strip (U "RAPIDAPI_KEY "))
          = Some (strip_chars quotes (py_strip (U " 'abc=123'")))
       /\ (forall other, other <> py_strip (U "RAPIDAPI_KEY ") ->
             environ_get env2 other
             = environ_get [(U "RAPIDAPI_KEY", U "first");
                            (U "RAPIDAPI_KEY", U "exported")] other)
       /\ load_RAPIDAPI_KEY (Lines ([U "RAPIDAPI_KEY=first"]
                                    ++ [U " RAPIDAPI_KEY = 'abc=123' "]))
            [(U "RAPIDAPI_KEY", U "exported")]
          = Ok (if ueqb (py_strip (U "RAPIDAPI_KEY ")) (U "RAPIDAPI_KEY")
                then Some (strip_chars quotes (py_strip (U " 'abc=123'")))
                else environ_get [(U "RAPIDAPI_KEY", U "first");
                                  (U "RAPIDAPI_KEY", U "exported")]
                       (U "RAPIDAPI_KEY")).
Proof.
  assert (no : forall (c : N) (s : ustring),
            forallb (fun x => negb (x =? c)) s = true -> ~ In c s).
  { intros c s H Hin. rewrite forallb_forall in H. specialize (H c Hin).
    now rewrite N.eqb_refl in H. }
  assert (H3 : ~ In 61 (U "RAPIDAPI_KEY ")) by (apply no; reflexivity).
  assert (H5 : py_strip (U "RAPIDAPI_KEY ") <> []) by discriminate.
  assert (H6 : ~ In 0 (py_strip (U "RAPIDAPI_KEY ")))
    by (apply no; reflexivity).
  assert (H7 : ~ In 0 (strip_chars quotes (py_strip (U " 'abc=123'"))))
    by (apply no; reflexivity).
  split; [reflexivity|]. split; [reflexivity|]. split; [exact H3|].
  split; [reflexivity|]. split; [exact H5|]. split; [exact H6|].
  split; [exact H7|].
  apply (load_env_assignment [U "RAPIDAPI_KEY=first"]
           (U " RAPIDAPI_KEY = 'abc=123' ") (U "RAPIDAPI_KEY ")
           (U " 'abc=123'") [(U "RAPIDAPI_KEY", U "exported")]
           [(U "RAPIDAPI_KEY", U "first"); (U "RAPIDAPI_KEY", U "exported")]
           eq_refl eq_refl H3 eq_refl H5 H6 H7).
Defined.
